(** * split_cv_data.py: cross-validation splits for the decagon and qm9 datasets

    A shallow embedding of [src/split_cv_data.py] and the properties of its
    graph loader, side-effect extractor, negative sampler, fold splitter and
    fold writer.

    Conventions of the embedding:
    - a Python [set] of drug pairs is a [gset (string * string)];
      [list(s)] is [elements s] (Python leaves the order unspecified);
    - a Python [dict] is an insertion-ordered association list ([odict]),
      because [enumerate(side_effects)] and [sorted(...)] observe the order;
    - a Python [int] that counts is a [nat], one that takes part in index
      arithmetic ([n_fold], slice bounds) is a [Z];
    - a raised exception is the [Raise] branch of [result];
    - the [while] loop of the sampler takes fuel, [None] standing for a loop
      that is still running when the fuel is used up;
    - the draws of [np.random] come from an oracle [nat -> nat * nat] and
      those of [random] from an oracle [nat -> nat], each indexed by the
      number of draws made so far;
    - text printed to the terminal ([print], [tqdm]) is left out. *)

From Stdlib Require Import ZArith Lia.
From stdpp Require Import gmap strings list.

Local Open Scope string_scope.
Local Open Scope list_scope.
Local Open Scope nat_scope.

#[local] Set Warnings "-clear-no-such-hyp".

(** ** Exceptions and results *)

Inductive exception : Type :=
  | AssertionError
  | ValueError
  | TypeError
  | KeyError
  | ZeroDivisionError
  | FileNotFoundError
  | UnsupportedOperation.

#[global] Instance exception_eq_dec : EqDecision exception.
Proof. solve_decision. Defined.

Inductive result (A : Type) : Type :=
  | Return (a : A)
  | Raise (e : exception).
Arguments Return {A} a.
Arguments Raise {A} e.

#[global] Instance result_ret : MRet result := fun A a => Return a.
#[global] Instance result_bind : MBind result := fun A B f c =>
  match c with
  | Return a => f a
  | Raise e => Raise e
  end.

Definition is_Return {A} (c : result A) : Prop :=
  match c with Return _ => True | Raise _ => False end.

(** [assert b, ...] *)
Definition py_assert (b : bool) : result unit :=
  if b then Return tt else Raise AssertionError.

(** ** Insertion-ordered dictionaries *)

Abbreviation odict K V := (list (K * V)) (only parsing).

(** [d[k]], [None] standing for [KeyError]; [k in d] is [is_Some]. *)
Fixpoint od_lookup {K V} `{EqDecision K} (d : odict K V) (k : K) : option V :=
  match d with
  | [] => None
  | (k', v) :: d' => if decide (k = k') then Some v else od_lookup d' k
  end.

(** [d[k] = v]: an existing key keeps its position, a new key goes last. *)
Fixpoint od_set {K V} `{EqDecision K} (d : odict K V) (k : K) (v : V)
    : odict K V :=
  match d with
  | [] => [(k, v)]
  | (k', v') :: d' =>
    if decide (k = k') then (k', v) :: d' else (k', v') :: od_set d' k v
  end.

Definition od_keys {K V} (d : odict K V) : list K := d.*1.

(** [for x in xs: body], threading the loop state and stopping at the first
    exception. *)
Fixpoint for_each {S X} (xs : list X) (body : S → X → result S) (s : S)
    : result S :=
  match xs with
  | [] => Return s
  | x :: xs' =>
    match body s x with
    | Return s' => for_each xs' body s'
    | Raise e => Raise e
    end
  end.

(** ** Graph loader *)

Module Loader.

Section loader.
Context {G : Type}.
(** [json.loads] *)
Variable json_loads : string → result G.

(** One entry [idx: json.loads(graph)] of the dict comprehension; [fields]
    is [l.split('\t')] and has to unpack into [idx, graph]. *)
Definition read_entry (drugs : odict string G) (fields : list string)
    : result (odict string G) :=
  match fields with
  | [idx; graph] => g ← json_loads graph; Return (od_set drugs idx g)
  | _ => Raise ValueError
  end.

(** [read_graph_structure(drug_feat_idx_jsonl)] on the lines of the file,
    each already split at the tabs. *)
Definition read_graph_structure (lines : list (list string))
    : result (odict string G) :=
  for_each lines read_entry [].
End loader.

End Loader.

(** ** Drugs and drug pairs *)

Abbreviation drug := string (only parsing).
Abbreviation ddp := (string * string)%type (only parsing).

Definition swap_pair (p : ddp) : ddp := (p.2, p.1).

(** ** Negative sampler *)

Module Sampler.

(** [np.random.choice(a, size=2, replace=False)]: two entries of [a] at two
    different positions; [ValueError] when [a] has fewer than two entries.
    The raw draw [r] selects the first position among [n] and the second
    among the [n - 1] remaining ones. *)
Definition np_random_choice (a : list drug) (r : nat * nat) : result ddp :=
  let n := length a in
  if decide (n < 2) then Raise ValueError
  else
    let i := r.1 mod n in
    let j0 := r.2 mod (n - 1) in
    let j := if decide (j0 < i) then j0 else S j0 in
    match a !! i, a !! j with
    | Some x, Some y => Return (x, y)
    | _, _ => Raise ValueError (* not reached: [i] and [j] are below [n] *)
    end.

(** The [while len(negative_set) < size] loop.  [t] counts the draws made so
    far; [None] means the fuel ran out before the loop ended. *)
Fixpoint negative_loop (fuel : nat) (rnd : nat → nat * nat) (t : nat)
    (drug_idx_list : list drug) (positive_set : gset ddp) (sz : nat)
    (negative_set : gset ddp) : option (result (gset ddp * nat)) :=
  if decide (size negative_set < sz) then
    match fuel with
    | 0 => None
    | S fuel' =>
      match np_random_choice drug_idx_list (rnd t) with
      | Raise e => Some (Raise e)
      | Return (drug1, drug2) =>
        if decide (drug1 = drug2) then Some (Raise AssertionError)
        else
          let neg_se_ddp1 := (drug1, drug2) in
          let neg_se_ddp2 := (drug2, drug1) in
          if decide (neg_se_ddp1 ∈ negative_set ∨
                     neg_se_ddp2 ∈ negative_set)
          then negative_loop fuel' rnd (S t) drug_idx_list positive_set sz
                 negative_set
          else if decide (neg_se_ddp1 ∈ positive_set ∨
                          neg_se_ddp2 ∈ positive_set)
          then negative_loop fuel' rnd (S t) drug_idx_list positive_set sz
                 negative_set
          else negative_loop fuel' rnd (S t) drug_idx_list positive_set sz
                 (negative_set ∪ {[neg_se_ddp1]})
      end
    end
  else Some (Return (negative_set, t)).

(** [create_negative_instances(drug_idx_list, positive_set, size=None)].
    [if not size] holds for [None] and for [0]. *)
Definition create_negative_instances (fuel : nat) (rnd : nat → nat * nat)
    (t : nat) (drug_idx_list : list drug) (positive_set : gset ddp)
    (size_arg : option nat) : option (result (list ddp * nat)) :=
  let sz := match size_arg with
            | Some (S n) => S n
            | _ => size positive_set
            end in
  match negative_loop fuel rnd t drug_idx_list positive_set sz ∅ with
  | None => None
  | Some (Raise e) => Some (Raise e)
  | Some (Return (negative_set, t')) =>
    Some (Return (elements negative_set, t'))
  end.

(** [x[i], x[j] = x[j], x[i]] *)
Definition swap_at {A} (x : list A) (i j : nat) : list A :=
  match x !! i, x !! j with
  | Some a, Some b => <[j:=a]> (<[i:=b]> x)
  | _, _ => x
  end.

(** [random.shuffle(x)]:
    [for i in reversed(range(1, len(x))): j = randbelow(i + 1); swap].
    [u] counts the draws made from the [random] module so far. *)
Fixpoint shuffle_loop {A} (rnd_py : nat → nat) (i : nat) (u : nat)
    (x : list A) : list A * nat :=
  match i with
  | 0 => (x, u)
  | S i' => shuffle_loop rnd_py i' (S u) (swap_at x i (rnd_py u mod S i))
  end.

Definition random_shuffle {A} (rnd_py : nat → nat) (u : nat) (x : list A)
    : list A * nat :=
  shuffle_loop rnd_py (length x - 1) u x.

(** The state of the loop of [prepare_dataset]: the two dicts built so far
    and the numbers of draws made from [np.random] and from [random]. *)
Record prepared : Type := {
  pos_datasets : list (string * list ddp);
  neg_datasets : list (string * list ddp);
  np_draws : nat;
  py_draws : nat
}.

(** The loop [for i, se in enumerate(tqdm(se_dps_dict))]. *)
Fixpoint prepare_loop (fuel : nat) (rnd : nat → nat * nat)
    (rnd_py : nat → nat) (drug_idx_list : list drug)
    (se_dps_dict : list (string * list ddp)) (ses : list string)
    (st : prepared) : option (result prepared) :=
  match ses with
  | [] => Some (Return st)
  | se :: ses' =>
    match od_lookup se_dps_dict se with
    | None => Some (Raise KeyError)
    | Some pos_se_ddp =>
      match create_negative_instances fuel rnd (np_draws st) drug_idx_list
              (list_to_set pos_se_ddp) (Some (length pos_se_ddp)) with
      | None => None
      | Some (Raise e) => Some (Raise e)
      | Some (Return (neg_se_ddp, t')) =>
        let shuffled_pos := random_shuffle rnd_py (py_draws st) pos_se_ddp in
        let shuffled_neg := random_shuffle rnd_py shuffled_pos.2 neg_se_ddp in
        prepare_loop fuel rnd rnd_py drug_idx_list se_dps_dict ses'
          {| pos_datasets := od_set (pos_datasets st) se shuffled_pos.1;
             neg_datasets := od_set (neg_datasets st) se shuffled_neg.1;
             np_draws := t';
             py_draws := shuffled_neg.2 |}
      end
    end
  end.

(** [prepare_dataset(se_dps_dict, drug_structure_dict)], started with [t]
    and [u] draws already made. *)
Definition prepare_dataset {G} (fuel : nat) (rnd : nat → nat * nat)
    (rnd_py : nat → nat) (t u : nat)
    (se_dps_dict : list (string * list ddp))
    (drug_structure_dict : list (string * G)) : option (result prepared) :=
  let drug_idx_list := od_keys drug_structure_dict in
  prepare_loop fuel rnd rnd_py drug_idx_list se_dps_dict (od_keys se_dps_dict)
    {| pos_datasets := []; neg_datasets := []; np_draws := t; py_draws := u |}.

End Sampler.

(** ** Side-effect extractor *)

Module Extractor.

(** One iteration of the [for i, row in enumerate(drug_reader)] loop. *)
Definition read_row (side_effects : odict string (list ddp)) (i : nat)
    (row : list string) : result (odict string (list ddp)) :=
  if decide (0 < i) then
    match row with
    | did1 :: did2 :: sid :: _ =>
      _ ← py_assert (bool_decide (did1 ≠ did2));
      let side_effects :=
        if decide (od_lookup side_effects sid = None)
        then od_set side_effects sid []
        else side_effects in
      match od_lookup side_effects sid with
      | Some ddis => Return (od_set side_effects sid (ddis ++ [(did1, did2)]))
      | None => Raise KeyError
      end
    | _ => Raise ValueError
    end
  else Return side_effects.

Fixpoint read_rows (i : nat) (rows : list (list string))
    (side_effects : odict string (list ddp))
    : result (odict string (list ddp)) :=
  match rows with
  | [] => Return side_effects
  | row :: rows' =>
    match read_row side_effects i row with
    | Return side_effects' => read_rows (S i) rows' side_effects'
    | Raise e => Raise e
    end
  end.

(** [sorted(items, key=lambda x: len(x[1]), reverse=True)]: stable, longest
    list first. *)
Fixpoint insert_by_len {V} (x : string * list V) (l : list (string * list V))
    : list (string * list V) :=
  match l with
  | [] => [x]
  | y :: l' =>
    if decide (length x.2 < length y.2) then y :: insert_by_len x l'
    else x :: y :: l'
  end.

Definition sorted_by_len_desc {V} (items : list (string * list V))
    : list (string * list V) :=
  foldr insert_by_len [] items.

(** [{sid: idx for idx, sid in enumerate(side_effects)}] *)
Definition enumerate_keys {V} (d : odict string V) : odict string nat :=
  imap (λ idx kv, (kv.1, idx)) d.

(** [read_ddi_instances(ddi_csv, threshold=498, use_small_dataset=False)];
    [rows] is what [csv.reader] yields for the file, header row included. *)
Definition read_ddi_instances (rows : list (list string)) (threshold : nat)
    (use_small_dataset : bool)
    : result (odict string (list ddp) * odict string nat) :=
  side_effects ← read_rows 0 rows [];
  let side_effects :=
    filter (λ kv, threshold ≤ length kv.2) side_effects in
  let side_effects :=
    if use_small_dataset then take 20 (sorted_by_len_desc side_effects)
    else side_effects in
  Return (side_effects, enumerate_keys side_effects).

Definition default_threshold : nat := 498.

End Extractor.

(** ** Notions used in the statements about the extractor *)

Module ExtractorSpec.

(** The pair a row contributes to side effect [sid], if any. *)
Definition row_pair (sid : string) (row : list string) : option ddp :=
  match row with
  | did1 :: did2 :: sid' :: _ =>
    if decide (sid' = sid) then Some (did1, did2) else None
  | _ => None
  end.

(** The drug pairs of the data rows (all rows but the header) that carry
    side effect [sid], in file order. *)
Definition pairs_of (sid : string) (rows : list (list string)) : list ddp :=
  omap (row_pair sid) (drop 1 rows).

(** [side_effects[sid] += [p]], creating the entry when it is missing. *)
Definition add_pair (side_effects : odict string (list ddp)) (sid : string)
    (p : ddp) : odict string (list ddp) :=
  od_set side_effects sid (default [] (od_lookup side_effects sid) ++ [p]).

(** The entry of a side effect after more pairs [l] were appended to it. *)
Definition extend (o : option (list ddp)) (l : list ddp)
    : option (list ddp) :=
  match l with
  | [] => o
  | _ => Some (default [] o ++ l)
  end.

(** A row has the three leading columns. *)
Definition well_formed_row (row : list string) : Prop := 3 ≤ length row.

(** A row names the same drug twice. *)
Definition self_pair_row (row : list string) : Prop :=
  ∃ did sid rest, row = did :: did :: sid :: rest.

(** A row the extractor accepts. *)
Definition valid_row (row : list string) : Prop :=
  ∃ did1 did2 sid rest, row = did1 :: did2 :: sid :: rest ∧ did1 ≠ did2.

(** Every pair of every side effect joins two different drugs. *)
Definition pairs_distinct (side_effects : odict string (list ddp)) : Prop :=
  Forall (λ kv, Forall (λ p : ddp, p.1 ≠ p.2) kv.2) side_effects.

(** Retention as the threshold alone would decide it: a side effect of the
    file is in the returned dict exactly when it has at least [threshold]
    pairs. *)
Definition retained_iff_threshold (rows : list (list string))
    (threshold : nat) (use_small_dataset : bool) : Prop :=
  ∀ side_effects idx,
    Extractor.read_ddi_instances rows threshold use_small_dataset
      = Return (side_effects, idx) →
    ∀ sid, pairs_of sid rows ≠ [] →
      (is_Some (od_lookup side_effects sid)
       ↔ threshold ≤ length (pairs_of sid rows)).


End ExtractorSpec.

(** ** Fold splitter *)

Module Splitter.

(** [range(lo, hi)] *)
Definition py_range (lo hi : Z) : list Z :=
  (λ k : nat, (lo + Z.of_nat k)%Z) <$> seq 0 (Z.to_nat (hi - lo)).

(** [a // b] *)
Definition py_floordiv (a b : Z) : result Z :=
  if decide (b = 0%Z) then Raise ZeroDivisionError else Return (a / b)%Z.

(** [l[start:stop]]: negative bounds count from the end, all bounds are
    clamped to the list. *)
Definition slice_bound (n i : Z) : Z :=
  if decide (i < 0)%Z then Z.max (i + n) 0 else Z.min i n.

Definition py_slice {A} (l : list A) (start stop : Z) : list A :=
  let n := Z.of_nat (length l) in
  let s := slice_bound n start in
  let e := slice_bound n stop in
  take (Z.to_nat (e - s)) (drop (Z.to_nat s) l).

Section split.
Context {A : Type}.

Abbreviation cv_dict := (odict Z (odict string (list A))).

(** [cv_dataset[fold_i][se] = v] *)
Definition cv_assign (cv_dataset : cv_dict) (fold_i : Z) (se : string)
    (v : list A) : result cv_dict :=
  match od_lookup cv_dataset fold_i with
  | Some inner => Return (od_set cv_dataset fold_i (od_set inner se v))
  | None => Raise KeyError
  end.

(** Body of [for fold_i in range(1, n_fold + 1)]. *)
Definition split_fold (ddis : list A) (n_fold fold_len : Z) (se : string)
    (cv_dataset : cv_dict) (fold_i : Z) : result cv_dict :=
  let fold_start := ((fold_i - 1) * fold_len)%Z in
  let fold_end :=
    if decide (fold_i < n_fold)%Z then (fold_i * fold_len)%Z
    else Z.of_nat (length ddis) in
  cv_assign cv_dataset fold_i se (py_slice ddis fold_start fold_end).

(** Body of [for se in datasets]. *)
Definition split_side_effect (datasets : odict string (list A)) (n_fold : Z)
    (cv_dataset : cv_dict) (se : string) : result cv_dict :=
  match od_lookup datasets se with
  | None => Raise KeyError
  | Some ddis =>
    fold_len ← py_floordiv (Z.of_nat (length ddis)) n_fold;
    for_each (py_range 1 (n_fold + 1)) (split_fold ddis n_fold fold_len se)
      cv_dataset
  end.

Definition split_all_cross_validation_datasets
    (datasets : odict string (list A)) (n_fold : Z) : result cv_dict :=
  let cv_dataset : cv_dict := (λ x, (x, [])) <$> py_range 1 (n_fold + 1) in
  for_each (od_keys datasets) (split_side_effect datasets n_fold) cv_dataset.

(** [cv_dataset[fold_i][se]] *)
Definition cv_lookup (cv_dataset : cv_dict) (fold_i : Z) (se : string)
    : option (list A) :=
  inner ← od_lookup cv_dataset fold_i; od_lookup inner se.

(** Number of pairs of [se] in fold [fold_i]. *)
Definition fold_count (cv_dataset : cv_dict) (se : string) (fold_i : Z)
    : nat :=
  match cv_lookup cv_dataset fold_i se with
  | Some l => length l
  | None => 0
  end.

(** The slice that the loop body computes for fold [fold_i]. *)
Definition fold_slice (ddis : list A) (n_fold fold_len fold_i : Z)
    : list A :=
  py_slice ddis ((fold_i - 1) * fold_len)
    (if decide (fold_i < n_fold)%Z then (fold_i * fold_len)%Z
     else Z.of_nat (length ddis)).

(** The folds of [se], first to last. *)
Definition folds_of (cv_dataset : cv_dict) (n_fold : Z) (se : string)
    : list (list A) :=
  (λ fold_i, default [] (cv_lookup cv_dataset fold_i se))
    <$> py_range 1 (n_fold + 1).

(** [l] cut into [m] pieces of length [q] followed by the rest. *)
Definition chunks (l : list A) (q m : nat) : list (list A) :=
  ((λ k, take q (drop (k * q) l)) <$> seq 0 m) ++ [drop (m * q) l].
End split.

End Splitter.

(** ** Fold writer *)

Module Writer.

(** The Python values that meet in the file-name expression of
    [split_decagon_cv]. *)
Inductive pyval : Type :=
  | PyNone
  | PyInt (z : Z)
  | PyStr (s : string)
  | PyStrList (l : list string)
  | PyBytes (b : list Byte.byte).

(** [a + b] *)
Definition py_add (a b : pyval) : result pyval :=
  match a, b with
  | PyInt x, PyInt y => Return (PyInt (x + y))
  | PyStr x, PyStr y => Return (PyStr (x +:+ y))
  | PyStrList x, PyStrList y => Return (PyStrList (x ++ y))
  | PyBytes x, PyBytes y => Return (PyBytes (x ++ y))
  | _, _ => Raise TypeError
  end.

(** The fields of [opt] that [split_decagon_cv] reads.  [argparse] stores
    [-p dir] as a one-element list ([nargs=1]), [None] without the flag, and
    [-n_fold] as an [int]. *)
Record namespace : Type := {
  path : pyval;
  n_fold : Z;
  pos_datasets : odict string (list ddp);
  neg_datasets : odict string (list ddp)
}.

(** [{'pos': ..., 'neg': ...}] *)
Record fold_dataset : Type := {
  pos : odict string (list ddp);
  neg : odict string (list ddp)
}.

(** Names and contents of the files on disk.  The script only ever calls
    [open(name)], which opens an existing file for reading in text mode, so
    the file system is an input that no operation below changes. *)
Abbreviation file_system := (list (string * list Byte.byte)) (only parsing).

(** [open(name)] *)
Definition py_open (fs : file_system) (name : pyval) : result string :=
  match name with
  | PyStr s =>
    if decide (s ∈ fs.*1) then Return s else Raise FileNotFoundError
  | _ => Raise TypeError
  end.

(** [f.write(data)] on a file returned by [py_open]: a text stream rejects
    anything but [str], and a stream opened for reading rejects writes. *)
Definition text_reader_write (data : pyval) : result unit :=
  match data with
  | PyStr _ => Raise UnsupportedOperation
  | _ => Raise TypeError
  end.

Definition od_get {K V} `{EqDecision K} (d : odict K V) (k : K) : result V :=
  match od_lookup d k with
  | Some v => Return v
  | None => Raise KeyError
  end.

Section writer.
Variable pickle_dumps : fold_dataset → list Byte.byte.

(** Body of [for fold_i in range(1, opt.n_fold + 1)]. *)
Definition write_fold (opt : namespace)
    (pos_cv_dataset neg_cv_dataset : odict Z (odict string (list ddp)))
    (fs : file_system) (fold_i : Z) : result file_system :=
  s1 ← py_add (path opt) (PyStr "decagon/");
  s2 ← py_add s1 (PyStr "folds/");
  s3 ← py_add s2 (PyInt (n_fold opt));
  name ← py_add s3 (PyStr "fold.npy");
  f ← py_open fs name;
  p ← od_get pos_cv_dataset fold_i;
  n ← od_get neg_cv_dataset fold_i;
  let fold_dataset := {| pos := p; neg := n |} in
  _ ← text_reader_write (PyBytes (pickle_dumps fold_dataset));
  Return fs.

Definition split_decagon_cv (opt : namespace) (fs : file_system)
    : result file_system :=
  pos_cv_dataset ←
    Splitter.split_all_cross_validation_datasets (pos_datasets opt)
      (n_fold opt);
  neg_cv_dataset ←
    Splitter.split_all_cross_validation_datasets (neg_datasets opt)
      (n_fold opt);
  for_each (Splitter.py_range 1 (n_fold opt + 1))
    (write_fold opt pos_cv_dataset neg_cv_dataset) fs.
End writer.

End Writer.

(** ** The qm9 split *)

Module Qm9.

(** [random.randint(a, b)] takes exactly two positional arguments. *)
Definition random_randint (args : list Z) (r : nat) : result Z :=
  match args with
  | [a; b] =>
    if decide (b < a)%Z then Raise ValueError
    else Return (a + Z.of_nat r `mod` (b - a + 1))%Z
  | _ => Raise TypeError
  end.

(** Body of [for i in range(10000)]; the state is [test_indices] and the
    number of random draws made. *)
Definition qm9_step (rnd : nat → nat) (st : list Z * nat) (i : Z)
    : result (list Z * nat) :=
  if decide (i ∉ st.1) then
    (r ← random_randint [0%Z] (rnd st.2);
     Return (st.1 ++ [r], S st.2))
  else Return st.

Definition split_qm9_cv {G} (graph_dict : odict string G) (rnd : nat → nat)
    : result unit :=
  let data_size := length graph_dict in
  (_ ← for_each (Splitter.py_range 0 10000) (qm9_step rnd) ([], 0);
   Return tt).

(** The qm9 branch of [main]: [opt = prepare_qm9_cv(opt); split_qm9_cv(opt)],
    where [prepared] is the outcome of reading the input files. *)
Definition main_qm9 {G} (prepared : result (odict string G)) (rnd : nat → nat)
    : result unit :=
  prepared ≫= (λ graph_dict, split_qm9_cv graph_dict rnd).

End Qm9.

(** ** Notions used in the statements about the sampler *)

Module SamplerSpec.

(** What every accepted negative pair satisfies. *)
Definition neg_inv (drug_idx_list : list drug)
    (positive_set negative_set : gset ddp) : Prop :=
  ∀ p, p ∈ negative_set →
    p.1 ≠ p.2 ∧ p.1 ∈ drug_idx_list ∧ p.2 ∈ drug_idx_list ∧
    (p ∉ positive_set) ∧ (swap_pair p ∉ positive_set) ∧
    (swap_pair p ∉ negative_set).

(** A pair the sampler may accept for the given positive set. *)
Definition candidate (drug_idx_list : list drug) (positive_set : gset ddp)
    (p : ddp) : Prop :=
  p.1 ∈ drug_idx_list ∧ p.2 ∈ drug_idx_list ∧ p.1 ≠ p.2 ∧
  (p ∉ positive_set) ∧ (swap_pair p ∉ positive_set).

(** No two entries are the same unordered pair. *)
Fixpoint distinct_unordered (C : list ddp) : Prop :=
  match C with
  | [] => True
  | p :: C' => (p ∉ C') ∧ (swap_pair p ∉ C') ∧ distinct_unordered C'
  end.

(** [p] or its reverse is already in the negative set. *)
Definition covered (negative_set : gset ddp) (p : ddp) : Prop :=
  p ∈ negative_set ∨ swap_pair p ∈ negative_set.

#[global] Instance covered_dec negative_set p :
  Decision (covered negative_set p).
Proof. unfold covered. apply _. Defined.

(** The random source keeps producing every unordered pair of distinct drugs:
    the possibilistic counterpart of drawing uniformly at random. *)
Definition fair (drug_idx_list : list drug) (rnd : nat → nat * nat) : Prop :=
  ∀ t a b, a ∈ drug_idx_list → b ∈ drug_idx_list → a ≠ b →
    ∃ t', t ≤ t' ∧
      (Sampler.np_random_choice drug_idx_list (rnd t') = Return (a, b) ∨
       Sampler.np_random_choice drug_idx_list (rnd t') = Return (b, a)).

(** What [prepare_dataset] is to hold for side effect [se]. *)
Definition side_effect_ok (se_dps_dict : list (string * list ddp))
    (st : Sampler.prepared) (se : string) : Prop :=
  ∀ ddis, od_lookup se_dps_dict se = Some ddis →
    ∃ pos_se_ddp neg_se_ddp,
      od_lookup (Sampler.pos_datasets st) se = Some pos_se_ddp ∧
      pos_se_ddp ≡ₚ ddis ∧
      od_lookup (Sampler.neg_datasets st) se = Some neg_se_ddp ∧
      length neg_se_ddp = length ddis ∧
      ∀ d1 d2, (d1, d2) ∈ neg_se_ddp →
        d1 ≠ d2 ∧ ((d1, d2) ∉ ddis) ∧ ((d2, d1) ∉ ddis).

(** A random source that walks through all ordered position pairs. *)
Definition round_robin (n : nat) (t : nat) : nat * nat := (t mod n, t / n).

End SamplerSpec.

(** ** The two pipelines and [main] *)

Module Main.

(** The outcome of [with open(name) as f: [l.split('\t') for l in f]] (or of
    [csv.reader] on the file): the rows, or the exception of [open]. *)
Abbreviation file_input := (result (list (list string))) (only parsing).

Section main.
Context {G L : Type}.
(** [json.loads] on a graph and on a label record. *)
Variable json_loads : string → result G.
Variable json_loads_labels : string → result L.
Variable pickle_dumps : Writer.fold_dataset → list Byte.byte.

(** [read_qm9_labels(drug_labels_jsonl)], on the split lines of the file. *)
Definition read_qm9_labels (lines : list (list string))
    : result (odict string L) :=
  for_each lines (Loader.read_entry json_loads_labels) [].

(** The fields that [prepare_qm9_cv] sets on [opt]. *)
Record qm9_opt : Type := {
  qm9_graph_dict : odict string G;
  labels_dict : odict string L;
  qm9_n_atom_type : Z;
  qm9_n_bond_type : Z
}.

Definition prepare_qm9_cv (graph_file labels_file : file_input)
    : result qm9_opt :=
  lines ← graph_file;
  graph_dict ← Loader.read_graph_structure json_loads lines;
  label_lines ← labels_file;
  labels ← read_qm9_labels label_lines;
  Return {| qm9_graph_dict := graph_dict; labels_dict := labels;
            qm9_n_atom_type := 5; qm9_n_bond_type := 5 |}.

(** The fields that [prepare_decagon_cv] sets on [opt]. *)
Record decagon_opt : Type := {
  graph_dict : odict string G;
  side_effects : odict string (list ddp);
  side_effect_idx_dict : odict string nat;
  pos_datasets : odict string (list ddp);
  neg_datasets : odict string (list ddp);
  n_atom_type : Z;
  n_bond_type : Z;
  n_side_effect : nat
}.

(** [prepare_decagon_cv(opt)]: the graph file is read first, then the DDI
    file with the default threshold and [use_small_dataset=opt.debug], then
    the datasets are drawn. *)
Definition prepare_decagon_cv (fuel : nat) (rnd : nat → nat * nat)
    (rnd_py : nat → nat) (t u : nat) (graph_file ddi_file : file_input)
    (debug : bool) : option (result decagon_opt) :=
  match graph_file ≫= Loader.read_graph_structure json_loads with
  | Raise e => Some (Raise e)
  | Return graph =>
    match ddi_file ≫= (λ rows, Extractor.read_ddi_instances rows
                                 Extractor.default_threshold debug) with
    | Raise e => Some (Raise e)
    | Return (ses, idx) =>
      match Sampler.prepare_dataset fuel rnd rnd_py t u ses graph with
      | None => None
      | Some (Raise e) => Some (Raise e)
      | Some (Return st) =>
        Some (Return {| graph_dict := graph;
                        side_effects := ses;
                        side_effect_idx_dict := idx;
                        pos_datasets := Sampler.pos_datasets st;
                        neg_datasets := Sampler.neg_datasets st;
                        n_atom_type := 100;
                        n_bond_type := 20;
                        n_side_effect := length ses |})
      end
    end
  end.

(** What [parse_args] returns, as far as [main] reads it; [datasets] holds
    one or more of ["qm9"] and ["decagon"] ([nargs='+'], [choices]). *)
Record arguments : Type := {
  datasets : list string;
  path : Writer.pyval;
  n_fold : Z;
  debug : bool
}.

(** The qm9 branch of [main]. *)
Definition run_qm9 (rnd_py : nat → nat)
    (graph_file labels_file : file_input) : result unit :=
  opt ← prepare_qm9_cv graph_file labels_file;
  Qm9.split_qm9_cv (qm9_graph_dict opt) rnd_py.

(** The decagon branch of [main]. *)
Definition run_decagon (fuel : nat) (rnd : nat → nat * nat)
    (rnd_py : nat → nat) (args : arguments)
    (graph_file ddi_file : file_input)
    (fs : list (string * list Byte.byte))
    : option (result (list (string * list Byte.byte))) :=
  match prepare_decagon_cv fuel rnd rnd_py 0 0 graph_file ddi_file
          (debug args) with
  | None => None
  | Some (Raise e) => Some (Raise e)
  | Some (Return opt) =>
    Some (Writer.split_decagon_cv pickle_dumps
            {| Writer.path := path args;
               Writer.n_fold := n_fold args;
               Writer.pos_datasets := pos_datasets opt;
               Writer.neg_datasets := neg_datasets opt |} fs)
  end.

(** [main()] after [parse_args]: the qm9 branch, then the decagon branch.
    The decagon branch starts from fresh random sources because the qm9
    branch makes no draw before it stops. *)
Definition main (fuel : nat) (rnd : nat → nat * nat) (rnd_py : nat → nat)
    (args : arguments) (graph_file labels_file ddi_file : file_input)
    (fs : list (string * list Byte.byte))
    : option (result (list (string * list Byte.byte))) :=
  match (if decide ("qm9" ∈ datasets args)
         then run_qm9 rnd_py graph_file labels_file
         else Return tt) with
  | Raise e => Some (Raise e)
  | Return _ =>
    if decide ("decagon" ∈ datasets args)
    then run_decagon fuel rnd rnd_py args graph_file ddi_file fs
    else Some (Return fs)
  end.
End main.

End Main.

(** ** Notions used in the statements about the remaining code *)

Module CoverageSpec.

(** A line of the graph file that unpacks into [idx, graph] with a graph
    that [json.loads] accepts. *)
Definition good_line {G} (json_loads : string → result G)
    (fields : list string) : Prop :=
  ∃ idx graph, fields = [idx; graph] ∧ is_Return (json_loads graph).

(** Longest list first. *)
Definition len_ge {V} (x y : string * list V) : Prop :=
  length y.2 ≤ length x.2.

End CoverageSpec.

(** ** Concrete inputs *)

Module Examples.

Definition drugs4 : list drug := ["CID1"; "CID2"; "CID3"; "CID4"].
Definition pos_list : list ddp := [("CID1", "CID2"); ("CID3", "CID4")].
Definition pos_set : gset ddp := list_to_set pos_list.


Definition header : list string :=
  ["STITCH 1"; "STITCH 2"; "Polypharmacy Side Effect"; "Side Effect Name"].

(** 500 data rows for side effect C0001 and 100 for C0002. *)
Definition rows_500_100 : list (list string) :=
  header :: replicate 500 ["CID1"; "CID2"; "C0001"]
    ++ replicate 100 ["CID1"; "CID3"; "C0002"].

Definition sids21 : list string :=
  ["C0001"; "C0002"; "C0003"; "C0004"; "C0005"; "C0006"; "C0007";
   "C0008"; "C0009"; "C0010"; "C0011"; "C0012"; "C0013"; "C0014";
   "C0015"; "C0016"; "C0017"; "C0018"; "C0019"; "C0020"; "C0021"].

(** 21 side effects with 498 data rows each. *)
Definition rows21 : list (list string) :=
  header :: flat_map (λ sid, replicate 498 ["CID1"; "CID2"; sid]) sids21.

(** Two data rows of one side effect. *)
Definition rows_small : list (list string) :=
  [header; ["CID1"; "CID2"; "C0001"; "x"]; ["CID3"; "CID4"; "C0001"; "x"]].

(** Seven positive and seven negative pairs of one side effect. *)
Definition pairs7 : list ddp :=
  [("CID1", "CID2"); ("CID1", "CID3"); ("CID1", "CID4"); ("CID2", "CID3");
   ("CID2", "CID4"); ("CID3", "CID4"); ("CID4", "CID5")].

Definition negs7 : list ddp :=
  [("CID1", "CID5"); ("CID2", "CID5"); ("CID3", "CID5"); ("CID1", "CID6");
   ("CID2", "CID6"); ("CID3", "CID6"); ("CID4", "CID6")].

Definition datasets7 : odict string (list ddp) := [("C0001", pairs7)].

(** The options of a run without [-p] and with the default [-n_fold]. *)
Definition opt_default : Writer.namespace :=
  {| Writer.path := Writer.PyNone;
     Writer.n_fold := 10;
     Writer.pos_datasets := datasets7;
     Writer.neg_datasets := [("C0001", negs7)] |}.

(** The options of a run with [-p ./data/] and [-n_fold 3]. *)
Definition opt_path : Writer.namespace :=
  {| Writer.path := Writer.PyStrList ["./data/"];
     Writer.n_fold := 3;
     Writer.pos_datasets := datasets7;
     Writer.neg_datasets := [("C0001", negs7)] |}.



End Examples.

(** * Properties *)

(** ** Insertion-ordered dictionaries: lookup after update *)

Section odict_facts.
Context {K V : Type} `{EqDecision K}.
Implicit Types (d : odict K V) (k : K) (v : V).

Lemma od_lookup_set d k v k' :
  od_lookup (od_set d k v) k' =
    if decide (k' = k) then Some v else od_lookup d k'.
Proof.
  induction d as [|[k0 v0] d IH]; simpl.
  - by case_decide.
  - destruct (decide (k = k0)) as [->|Hne]; simpl.
    + by destruct (decide (k' = k0)).
    + rewrite IH. repeat case_decide; congruence.
Qed.

Lemma od_set_set d k v w : od_set (od_set d k v) k w = od_set d k w.
Proof.
  induction d as [|[k0 v0] d IH]; simpl.
  - by rewrite decide_True.
  - destruct (decide (k = k0)) as [->|Hne]; simpl.
    + by rewrite decide_True.
    + rewrite decide_False by done. by rewrite IH.
Qed.

Lemma od_lookup_None d k : od_lookup d k = None ↔ k ∉ od_keys d.
Proof.
  unfold od_keys. induction d as [|[k0 v0] d IH]; simpl.
  - split; [intros _; apply not_elem_of_nil|done].
  - rewrite not_elem_of_cons. case_decide; [|tauto].
    split; [done|tauto].
Qed.

Lemma od_lookup_elem d k v : od_lookup d k = Some v → (k, v) ∈ d.
Proof.
  induction d as [|[k0 v0] d IH]; simpl; [done|].
  case_decide as Hk.
  - intros [= ->]. subst. apply list_elem_of_here.
  - intros. by apply list_elem_of_further, IH.
Qed.

Lemma od_keys_set d k v :
  od_keys (od_set d k v) =
    if decide (k ∈ od_keys d) then od_keys d else od_keys d ++ [k].
Proof.
  induction d as [|[k0 v0] d IH].
  - destruct (decide (k ∈ od_keys [])) as [Hin|]; [|done].
    by apply elem_of_nil in Hin.
  - change (od_keys ((k0, v0) :: d)) with (k0 :: od_keys d).
    cbn [od_set]. destruct (decide (k = k0)) as [->|Hne].
    + rewrite decide_True; [done|apply list_elem_of_here].
    + change (od_keys ((k0, v0) :: od_set d k v))
        with (k0 :: od_keys (od_set d k v)).
      rewrite IH. destruct (decide (k ∈ od_keys d)) as [Hin|Hnin].
      * rewrite decide_True; [done|by apply list_elem_of_further].
      * rewrite decide_False; [done|]. rewrite not_elem_of_cons. tauto.
Qed.

Lemma od_keys_set_NoDup d k v :
  NoDup (od_keys d) → NoDup (od_keys (od_set d k v)).
Proof.
  intros Hnd. rewrite od_keys_set. case_decide; [done|].
  apply NoDup_app. split; [done|]. split; [|apply NoDup_singleton].
  intros x Hx ->%list_elem_of_singleton. done.
Qed.

Lemma od_lookup_filter (P : K * V → Prop) `{∀ x, Decision (P x)} d k :
  NoDup (od_keys d) →
  od_lookup (filter P d) k =
    match od_lookup d k with
    | Some v => if decide (P (k, v)) then Some v else None
    | None => None
    end.
Proof.
  unfold od_keys. induction d as [|[k0 v0] d IH]; [done|].
  rewrite fmap_cons. intros [Hk0 Hnd]%NoDup_cons. specialize (IH Hnd).
  rewrite filter_cons. cbn [od_lookup fst].
  destruct (decide (k = k0)) as [->|Hne].
  - destruct (decide (P (k0, v0))); cbn [od_lookup].
    + by rewrite decide_True.
    + rewrite IH. apply od_lookup_None in Hk0. cbn [fst] in Hk0.
      by rewrite Hk0.
  - destruct (decide (P (k0, v0))); cbn [od_lookup]; [|done].
    by rewrite decide_False.
Qed.

Lemma od_elem_lookup d k v :
  NoDup (od_keys d) → (k, v) ∈ d → od_lookup d k = Some v.
Proof.
  unfold od_keys. induction d as [|[k0 v0] d IH]; [by intros _ ?%elem_of_nil|].
  rewrite fmap_cons. intros [Hk0 Hnd]%NoDup_cons.
  intros [[= -> ->] | Hin]%elem_of_cons; cbn [od_lookup].
  - by rewrite decide_True.
  - rewrite decide_False; [by apply IH|].
    intros ->. apply Hk0. cbn [fst].
    apply list_elem_of_fmap. by exists (k0, v).
Qed.

Lemma od_set_Forall (Q : V → Prop) d k v :
  Forall (λ kv, Q kv.2) d → Q v → Forall (λ kv, Q kv.2) (od_set d k v).
Proof.
  intros Hd Hv. induction d as [|[k0 v0] d IH]; simpl.
  - by apply Forall_singleton.
  - apply Forall_cons in Hd as [H0 Hd]. case_decide.
    + by apply Forall_cons.
    + apply Forall_cons. split; [done|by apply IH].
Qed.
End odict_facts.

(** ** Negative sampler: what a returned list satisfies *)

Section sampler_sound.
Import Sampler SamplerSpec.

Lemma np_random_choice_elem (a : list drug) r x y :
  np_random_choice a r = Return (x, y) → x ∈ a ∧ y ∈ a.
Proof.
  unfold np_random_choice. case_decide; [done|].
  destruct (a !! _) as [x'|] eqn:Hx; [|done].
  destruct (a !! _) as [y'|] eqn:Hy in |- *; [|done].
  intros [= <- <-]. split; eapply list_elem_of_lookup_2; eauto.
Qed.

Lemma neg_inv_empty drug_idx_list positive_set :
  neg_inv drug_idx_list positive_set ∅.
Proof. intros p Hp. set_solver. Qed.

Lemma neg_inv_add drug_idx_list positive_set negative_set x y :
  neg_inv drug_idx_list positive_set negative_set →
  x ≠ y → x ∈ drug_idx_list → y ∈ drug_idx_list →
  ¬ ((x, y) ∈ negative_set ∨ (y, x) ∈ negative_set) →
  ¬ ((x, y) ∈ positive_set ∨ (y, x) ∈ positive_set) →
  neg_inv drug_idx_list positive_set (negative_set ∪ {[(x, y)]}).
Proof.
  intros Hinv Hxy Hx Hy Hneg Hpos p Hp.
  apply elem_of_union in Hp as [Hp | Hp].
  - destruct (Hinv p Hp) as (H1 & H2 & H3 & H4 & H5 & H6).
    repeat split; try done.
    intros [Hq | Hq]%elem_of_union; [done|].
    apply elem_of_singleton in Hq. destruct p as [a b].
    unfold swap_pair in Hq; simpl in Hq. injection Hq as -> ->. tauto.
  - apply elem_of_singleton in Hp as ->. unfold swap_pair; simpl.
    repeat split; try tauto.
    intros [Hq | Hq]%elem_of_union; [tauto|].
    apply elem_of_singleton in Hq. congruence.
Qed.

(** The loop invariant carried to the exit of the loop. *)
Lemma negative_loop_sound rnd drug_idx_list positive_set sz fuel :
  ∀ t negative_set negative_set' t',
    negative_loop fuel rnd t drug_idx_list positive_set sz negative_set
      = Some (Return (negative_set', t')) →
    neg_inv drug_idx_list positive_set negative_set →
    size negative_set ≤ sz →
    neg_inv drug_idx_list positive_set negative_set' ∧
    size negative_set' = sz.
Proof.
  induction fuel as [|fuel IH]; intros t neg neg' t' Hrun Hinv Hsz;
    simpl in Hrun.
  - case_decide; [done|]. injection Hrun as <- <-. split; [done|lia].
  - case_decide as Hlt; [|injection Hrun as <- <-; split; [done|lia]].
    destruct (np_random_choice _ _) as [[x y]|e] eqn:Hdraw; [|done].
    apply np_random_choice_elem in Hdraw as [Hx Hy].
    case_decide as Hxy; [done|].
    case_decide as Hneg; [by eapply IH|].
    case_decide as Hpos; [by eapply IH|].
    eapply IH; [done| by apply neg_inv_add |].
    rewrite size_union, size_singleton; [lia|].
    apply disjoint_singleton_r. tauto.
Qed.

(** What [create_negative_instances] returns is the element list of a set
    that satisfies the invariant and has the requested size. *)
Lemma create_negative_instances_sound fuel rnd t drug_idx_list positive_set
    size_arg l t' :
  create_negative_instances fuel rnd t drug_idx_list positive_set size_arg
    = Some (Return (l, t')) →
  ∃ negative_set,
    l = elements negative_set ∧
    neg_inv drug_idx_list positive_set negative_set ∧
    size negative_set =
      match size_arg with Some (S n) => S n | _ => size positive_set end.
Proof.
  unfold create_negative_instances.
  destruct (negative_loop _ _ _ _ _ _ _) as [[[neg t'']|e]|] eqn:Hrun;
    [|done..].
  intros [= <- <-]. exists neg. split; [done|].
  eapply negative_loop_sound; [done|apply neg_inv_empty|].
  rewrite size_empty. lia.
Qed.
End sampler_sound.

(** ** Negative sampler: the loop ends when enough candidates exist *)

Section sampler_terminates.
Import Sampler SamplerSpec.

Lemma two_distinct_elems {A} (l : list A) a b :
  a ∈ l → b ∈ l → a ≠ b → 2 ≤ length l.
Proof.
  destruct l as [|x [|y l]]; simpl; [set_solver | | lia].
  intros ->%list_elem_of_singleton ->%list_elem_of_singleton. done.
Qed.

(** Over a duplicate-free list of at least two drugs a draw never fails and
    never yields the same drug twice. *)
Lemma np_random_choice_total (a : list drug) r :
  NoDup a → 2 ≤ length a →
  ∃ x y, np_random_choice a r = Return (x, y) ∧ x ≠ y.
Proof.
  intros Hnd Hlen. unfold np_random_choice.
  case_decide; [lia|].
  set (i := r.1 mod length a). set (j0 := r.2 mod (length a - 1)).
  assert (i < length a) as Hi by (apply Nat.mod_upper_bound; lia).
  assert (j0 < length a - 1) as Hj0 by (apply Nat.mod_upper_bound; lia).
  set (j := if decide (j0 < i) then j0 else S j0).
  assert (j < length a ∧ i ≠ j) as [Hj Hij]
    by (subst j; case_decide; lia).
  destruct (lookup_lt_is_Some_2 a i Hi) as [x Hx].
  destruct (lookup_lt_is_Some_2 a j Hj) as [y Hy].
  rewrite Hx, Hy. exists x, y. split; [done|].
  intros ->. apply Hij. by eapply NoDup_lookup.
Qed.

(** Pigeonhole: a negative set covering every entry of a list of distinct
    unordered pairs has at least as many elements as the list. *)
Lemma covered_all_size (C : list ddp) :
  ∀ negative_set : gset ddp,
    distinct_unordered C → Forall (covered negative_set) C →
    length C ≤ size negative_set.
Proof.
  induction C as [|c C IH]; intros neg Hdist Hcov; simpl; [lia|].
  destruct Hdist as (Hc & Hsc & Hdist).
  apply Forall_cons in Hcov as [Hcc Hcov].
  pose (neg2 := neg ∖ {[c; swap_pair c]}).
  assert (length C ≤ size neg2) as Hle.
  { apply IH; [done|]. apply Forall_forall. intros c' Hc'.
    rewrite Forall_forall in Hcov. specialize (Hcov c' Hc').
    assert (c' ≠ c) by (intros ->; done).
    assert (c' ≠ swap_pair c) by (intros ->; done).
    assert (swap_pair c' ≠ c).
    { intros <-. destruct c'. unfold swap_pair in *; simpl in *. done. }
    assert (swap_pair c' ≠ swap_pair c).
    { destruct c, c'. unfold swap_pair; simpl. congruence. }
    unfold covered, neg2 in *. set_solver. }
  assert (size neg2 < size neg); [|lia].
  apply subset_size. unfold covered, neg2 in *. set_solver.
Qed.

Lemma exists_uncovered (C : list ddp) (negative_set : gset ddp) :
  distinct_unordered C → size negative_set < length C →
  ∃ c, c ∈ C ∧ ¬ covered negative_set c.
Proof.
  intros Hdist Hlt.
  destruct (decide (Forall (covered negative_set) C)) as [Hall | Hnot].
  - pose proof (covered_all_size C negative_set Hdist Hall). lia.
  - apply not_Forall_Exists in Hnot; [|apply _].
    by apply Exists_exists in Hnot.
Qed.

Context (rnd : nat → nat * nat) (drug_idx_list : list drug)
  (positive_set : gset ddp) (sz : nat).
Hypothesis drugs_nodup : NoDup drug_idx_list.

(** While the set is short of [sz], the loop reaches the draw of a pending
    candidate at [t'] or accepts another pair before. *)
Lemma negative_loop_wait (negative_set : gset ddp) (c : ddp) (t' : nat) :
  size negative_set < sz →
  candidate drug_idx_list positive_set c →
  ¬ covered negative_set c →
  np_random_choice drug_idx_list (rnd t') = Return c ∨
    np_random_choice drug_idx_list (rnd t') = Return (swap_pair c) →
  (∀ x y t1, x ≠ y → x ∈ drug_idx_list → y ∈ drug_idx_list →
     ¬ ((x, y) ∈ negative_set ∨ (y, x) ∈ negative_set) →
     ¬ ((x, y) ∈ positive_set ∨ (y, x) ∈ positive_set) →
     ∃ fuel r, negative_loop fuel rnd (S t1) drug_idx_list positive_set sz
                 (negative_set ∪ {[(x, y)]}) = Some (Return r)) →
  ∀ d t, t' - t ≤ d → t ≤ t' →
    ∃ fuel r, negative_loop fuel rnd t drug_idx_list positive_set sz
                negative_set = Some (Return r).
Proof.
  intros Hlt (Hc1 & Hc2 & Hc12 & Hcp & Hcsp) Hunc Hdraw Hacc.
  assert (2 ≤ length drug_idx_list) as Hlen
    by (by apply (two_distinct_elems _ c.1 c.2)).
  assert (∀ x y t, np_random_choice drug_idx_list (rnd t) = Return (x, y) →
            x ≠ y → t ≤ t' →
            t ≠ t' ∨
            ¬ ((x, y) ∈ negative_set ∨ (y, x) ∈ negative_set) ∧
            ¬ ((x, y) ∈ positive_set ∨ (y, x) ∈ positive_set)) as Hat.
  { intros x y t Hxy Hne Hle. destruct (decide (t = t')) as [->|]; [right|by left].
    destruct c as [a b]. unfold covered, swap_pair in *; simpl in *.
    destruct Hdraw as [Hd | Hd]; rewrite Hd in Hxy; injection Hxy as <- <-;
      tauto. }
  induction d as [|d IH]; intros t Hd Hle.
  - destruct (np_random_choice_total drug_idx_list (rnd t) drugs_nodup Hlen)
      as (x & y & Hxy & Hne).
    destruct (np_random_choice_elem _ _ _ _ Hxy) as [Hx Hy].
    destruct (Hat x y t Hxy Hne Hle) as [Hf | [Hn Hp]]; [lia|].
    destruct (Hacc x y t Hne Hx Hy Hn Hp) as (fuel & r & Hrun).
    exists (S fuel), r. simpl. rewrite decide_True by done. rewrite Hxy.
    rewrite decide_False by done. rewrite decide_False by done.
    by rewrite decide_False by done.
  - destruct (np_random_choice_total drug_idx_list (rnd t) drugs_nodup Hlen)
      as (x & y & Hxy & Hne).
    destruct (np_random_choice_elem _ _ _ _ Hxy) as [Hx Hy].
    destruct (decide ((x, y) ∈ negative_set ∨ (y, x) ∈ negative_set))
      as [Hn | Hn];
      [|destruct (decide ((x, y) ∈ positive_set ∨ (y, x) ∈ positive_set))
          as [Hp | Hp]].
    + destruct (Hat x y t Hxy Hne Hle) as [Hf | [Hn' _]]; [|done].
      destruct (IH (S t)) as (fuel & r & Hrun); [lia| |].
      { destruct (decide (t = t')); [done|lia]. }
      exists (S fuel), r. simpl. rewrite decide_True by done. rewrite Hxy.
      rewrite decide_False by done. by rewrite decide_True by done.
    + destruct (Hat x y t Hxy Hne Hle) as [Hf | [_ Hp']]; [|done].
      destruct (IH (S t)) as (fuel & r & Hrun); [lia| |].
      { destruct (decide (t = t')); [done|lia]. }
      exists (S fuel), r. simpl. rewrite decide_True by done. rewrite Hxy.
      rewrite decide_False by done. rewrite decide_False by done.
      by rewrite decide_True by done.
    + destruct (Hacc x y t Hne Hx Hy Hn Hp) as (fuel & r & Hrun).
      exists (S fuel), r. simpl. rewrite decide_True by done. rewrite Hxy.
      rewrite decide_False by done. rewrite decide_False by done.
      by rewrite decide_False by done.
Qed.

Hypothesis rnd_fair : fair drug_idx_list rnd.
Context (C : list ddp).
Hypothesis C_distinct : distinct_unordered C.
Hypothesis C_candidates : Forall (candidate drug_idx_list positive_set) C.
Hypothesis C_enough : sz ≤ length C.

(** With a fair random source and [sz] candidates the loop returns. *)
Lemma negative_loop_terminates :
  ∀ m t (negative_set : gset ddp),
    sz - size negative_set ≤ m →
    neg_inv drug_idx_list positive_set negative_set →
    ∃ fuel r, negative_loop fuel rnd t drug_idx_list positive_set sz
                negative_set = Some (Return r).
Proof.
  induction m as [|m IH]; intros t neg Hm Hinv.
  - exists 0, (neg, t). simpl. by rewrite decide_False by lia.
  - destruct (decide (size neg < sz)) as [Hlt|Hge];
      [|exists 0, (neg, t); simpl; by rewrite decide_False by done].
    destruct (exists_uncovered C neg C_distinct) as (c & HcC & Hunc); [lia|].
    rewrite Forall_forall in C_candidates.
    pose proof (C_candidates c HcC) as Hcand.
    destruct Hcand as (Hc1 & Hc2 & Hc12 & Hcp & Hcsp).
    destruct (rnd_fair t c.1 c.2 Hc1 Hc2 Hc12) as (t' & Hle & Hdraw).
    eapply (negative_loop_wait neg c t' Hlt); [done|done| |
      |reflexivity|done].
    + by destruct c.
    + intros x y t1 Hne Hx Hy Hn Hp. apply IH.
      * rewrite size_union, size_singleton; [lia|].
        apply disjoint_singleton_r. tauto.
      * by apply neg_inv_add.
Qed.
End sampler_terminates.

Section sampler_total.
Import Sampler SamplerSpec.

(** Called the way [prepare_dataset] calls it, the sampler returns the
    element list of a set that satisfies the invariant and has as many
    elements as the positive list. *)
Lemma create_negative_instances_total (rnd : nat → nat * nat) (t : nat)
    (drug_idx_list : list drug) (pos_se_ddp : list ddp) (C : list ddp) :
  NoDup drug_idx_list →
  fair drug_idx_list rnd →
  distinct_unordered C →
  Forall (candidate drug_idx_list (list_to_set pos_se_ddp)) C →
  length pos_se_ddp ≤ length C →
  ∃ fuel (negative_set : gset ddp) t',
    create_negative_instances fuel rnd t drug_idx_list
      (list_to_set pos_se_ddp) (Some (length pos_se_ddp))
      = Some (Return (elements negative_set, t')) ∧
    neg_inv drug_idx_list (list_to_set pos_se_ddp) negative_set ∧
    size negative_set = length pos_se_ddp.
Proof.
  intros Hnd Hfair Hdist Hcand Hlen.
  set (positive_set := list_to_set pos_se_ddp : gset ddp) in *.
  set (sz := match length pos_se_ddp with
             | S n => S n | 0 => size positive_set end).
  assert (sz = length pos_se_ddp) as Hsz.
  { subst sz positive_set. destruct pos_se_ddp; [|done].
    change (size (∅ : gset ddp) = 0). apply size_empty. }
  destruct (negative_loop_terminates rnd drug_idx_list positive_set sz Hnd
              Hfair C Hdist Hcand ltac:(lia) sz t ∅)
    as (fuel & [neg t'] & Hrun).
  { rewrite size_empty. lia. }
  { apply neg_inv_empty. }
  exists fuel, neg, t'.
  assert (create_negative_instances fuel rnd t drug_idx_list positive_set
            (Some (length pos_se_ddp)) = Some (Return (elements neg, t')))
    as Hcall.
  { unfold create_negative_instances. fold sz. by rewrite Hrun. }
  split; [done|].
  destruct (negative_loop_sound _ _ _ _ _ _ _ _ _ Hrun
              (neg_inv_empty _ _)) as [Hinv Hsize].
  { rewrite size_empty. lia. }
  split; [done|lia].
Qed.
End sampler_total.

(** ** Negative sampler: the round-robin source is fair *)

Section round_robin.
Import Sampler SamplerSpec.


End round_robin.

(** ** Negative sampler: the claims *)

Section sampler_claims.
Import Sampler SamplerSpec.

(** C1: every pair of the list returned by [create_negative_instances] is
    absent from the positive set passed in, in both orientations. *)
Theorem negative_pairs_not_positive (fuel : nat) (rnd : nat → nat * nat)
    (t : nat) (drug_idx_list : list drug)
    (positive_set : gset ddp) size_arg (l : list ddp) t' (d1 d2 : drug) :
  create_negative_instances fuel rnd t drug_idx_list positive_set size_arg
    = Some (Return (l, t')) →
  (d1, d2) ∈ l →
  ((d1, d2) ∉ positive_set) ∧ ((d2, d1) ∉ positive_set).
Proof.
  intros (neg & -> & Hinv & _)%create_negative_instances_sound Hin.
  apply elem_of_elements in Hin.
  destruct (Hinv _ Hin) as (_ & _ & _ & Hp & Hsp & _). done.
Qed.

(** C9: the list returned by [create_negative_instances] holds no pair
    twice and never both orientations of one unordered pair. *)
Theorem negative_pairs_pairwise_distinct (fuel : nat)
    (rnd : nat → nat * nat) (t : nat) (drug_idx_list : list drug)
    (positive_set : gset ddp) size_arg
    (l : list ddp) t' (i j : nat) (a b c d : drug) :
  create_negative_instances fuel rnd t drug_idx_list positive_set size_arg
    = Some (Return (l, t')) →
  i ≠ j → l !! i = Some (a, b) → l !! j = Some (c, d) →
  (a, b) ≠ (c, d) ∧ (a, b) ≠ (d, c).
Proof.
  intros (neg & -> & Hinv & _)%create_negative_instances_sound Hij Hi Hj.
  split.
  - intros Heq. rewrite <- Heq in Hj. apply Hij.
    by apply (NoDup_lookup (elements neg) i j (a, b) (NoDup_elements neg)).
  - intros Heq.
    apply list_elem_of_lookup_2, elem_of_elements in Hi.
    apply list_elem_of_lookup_2, elem_of_elements in Hj.
    destruct (Hinv _ Hj) as (_ & _ & _ & _ & _ & Hsw).
    apply Hsw. unfold swap_pair; simpl. by rewrite <- Heq.
Qed.

End sampler_claims.

Section sampler_witnesses.
Import Sampler SamplerSpec Examples.

Lemma negative_pairs_not_positive_witness :
  create_negative_instances 10 (round_robin 4) 0 drugs4 pos_set (Some 2)
    = Some (Return ([("CID3", "CID1"); ("CID4", "CID1")], 4)) ∧
  (("CID4", "CID1") ∉ pos_set) ∧ (("CID1", "CID4") ∉ pos_set).
Proof.
  split; [vm_compute; reflexivity|].
  apply (negative_pairs_not_positive 10 (round_robin 4) 0 drugs4 pos_set
           (Some 2) [("CID3", "CID1"); ("CID4", "CID1")] 4).
  - vm_compute; reflexivity.
  - apply list_elem_of_further, list_elem_of_here.
Defined.

Lemma negative_pairs_pairwise_distinct_witness :
  ("CID3", "CID1") ≠ ("CID4", "CID1") ∧ ("CID3", "CID1") ≠ ("CID1", "CID4").
Proof.
  apply (negative_pairs_pairwise_distinct 10 (round_robin 4) 0 drugs4
           pos_set (Some 2) [("CID3", "CID1"); ("CID4", "CID1")] 4 0 1).
  - vm_compute; reflexivity.
  - lia.
  - reflexivity.
  - reflexivity.
Defined.

End sampler_witnesses.

(** ** Graph loader and shuffle *)

Section loader_facts.
Import Loader Sampler.

(** The drug identifiers that [prepare_dataset] draws from are the keys of
    the dict built by [read_graph_structure]: no identifier occurs twice. *)
Lemma read_graph_structure_keys_NoDup {G} (json_loads : string → result G)
    (lines : list (list string)) (drugs : odict string G) :
  read_graph_structure json_loads lines = Return drugs →
  NoDup (od_keys drugs).
Proof.
  unfold read_graph_structure.
  assert (NoDup (od_keys (@nil (string * G)))) as Hnil by apply NoDup_nil_2.
  revert Hnil. generalize (@nil (string * G)) as d.
  induction lines as [|fields lines IH]; intros d Hd; cbn [for_each].
  - by intros [= <-].
  - destruct fields as [|idx [|graph [|? ?]]]; cbn [read_entry]; try done.
    destruct (json_loads graph) as [g|e]; cbn [mbind result_bind]; [|done].
    apply IH. by apply od_keys_set_NoDup.
Qed.

Lemma swap_at_perm {A} (x : list A) i j : swap_at x i j ≡ₚ x.
Proof.
  unfold swap_at. destruct (x !! i) as [a|] eqn:Hi; [|done].
  destruct (x !! j) as [b|] eqn:Hj; [|done].
  by apply Permutation_insert_swap.
Qed.

Lemma shuffle_loop_perm {A} rnd_py i :
  ∀ u (x : list A), (shuffle_loop rnd_py i u x).1 ≡ₚ x.
Proof.
  induction i as [|i IH]; intros u x; cbn [shuffle_loop]; [done|].
  by rewrite IH, swap_at_perm.
Qed.

(** [random.shuffle] only reorders the list. *)
Lemma random_shuffle_perm {A} rnd_py u (x : list A) :
  (random_shuffle rnd_py u x).1 ≡ₚ x.
Proof. apply shuffle_loop_perm. Qed.
End loader_facts.

(** ** Negative sampler: every side effect of [prepare_dataset] *)

Section prepare_dataset_facts.
Import Sampler SamplerSpec.

(** More fuel does not change a result. *)
Lemma negative_loop_fuel_mono (rnd : nat → nat * nat)
    (drug_idx_list : list drug) (positive_set : gset ddp) (sz fuel : nat) :
  ∀ fuel' t (negative_set : gset ddp) r,
    fuel ≤ fuel' →
    negative_loop fuel rnd t drug_idx_list positive_set sz negative_set
      = Some r →
    negative_loop fuel' rnd t drug_idx_list positive_set sz negative_set
      = Some r.
Proof.
  induction fuel as [|fuel IH]; intros fuel' t neg r Hle Hrun.
  - cbn [negative_loop] in Hrun. case_decide; [done|].
    destruct fuel'; cbn [negative_loop]; by rewrite decide_False.
  - destruct fuel' as [|fuel']; [lia|].
    cbn [negative_loop] in *. case_decide; [|done].
    destruct (np_random_choice _ _) as [[x y]|e]; [|done].
    repeat case_decide; try done; apply IH; (lia || done).
Qed.

Lemma create_negative_instances_fuel_mono (fuel fuel' : nat)
    (rnd : nat → nat * nat) (t : nat) (drug_idx_list : list drug)
    (positive_set : gset ddp) size_arg r :
  fuel ≤ fuel' →
  create_negative_instances fuel rnd t drug_idx_list positive_set size_arg
    = Some r →
  create_negative_instances fuel' rnd t drug_idx_list positive_set size_arg
    = Some r.
Proof.
  intros Hle. unfold create_negative_instances.
  destruct (negative_loop fuel _ _ _ _ _ _) as [r0|] eqn:Hrun; [|done].
  by rewrite (negative_loop_fuel_mono _ _ _ _ _ _ _ _ _ Hle Hrun).
Qed.

Lemma prepare_loop_fuel_mono fuel fuel' rnd rnd_py drug_idx_list se_dps_dict
    ses :
  fuel ≤ fuel' →
  ∀ st r,
    prepare_loop fuel rnd rnd_py drug_idx_list se_dps_dict ses st = Some r →
    prepare_loop fuel' rnd rnd_py drug_idx_list se_dps_dict ses st = Some r.
Proof.
  intros Hle. induction ses as [|se ses IH]; intros st r; cbn [prepare_loop];
    [done|].
  destruct (od_lookup se_dps_dict se) as [ddis|]; [|done].
  destruct (create_negative_instances fuel _ _ _ _ _) as [r0|] eqn:Hrun;
    [|done].
  rewrite (create_negative_instances_fuel_mono _ _ _ _ _ _ _ _ Hle Hrun).
  destruct r0 as [[l t']|e]; [|done]. apply IH.
Qed.

Context (rnd : nat → nat * nat) (rnd_py : nat → nat)
  (drug_idx_list : list drug) (se_dps_dict : list (string * list ddp)).
Hypothesis drugs_nodup : NoDup drug_idx_list.
Hypothesis rnd_fair : fair drug_idx_list rnd.
Hypothesis enough_candidates :
  ∀ se ddis, od_lookup se_dps_dict se = Some ddis →
    ∃ C, distinct_unordered C ∧
         Forall (candidate drug_idx_list (list_to_set ddis)) C ∧
         length ddis ≤ length C.

Lemma prepare_loop_spec (ses : list string) :
  (∀ se, se ∈ ses → is_Some (od_lookup se_dps_dict se)) →
  ∀ st, ∃ fuel st',
    prepare_loop fuel rnd rnd_py drug_idx_list se_dps_dict ses st
      = Some (Return st') ∧
    (∀ se, se ∈ ses → side_effect_ok se_dps_dict st' se) ∧
    (∀ se, se ∉ ses →
       od_lookup (pos_datasets st') se = od_lookup (pos_datasets st) se ∧
       od_lookup (neg_datasets st') se = od_lookup (neg_datasets st) se).
Proof.
  induction ses as [|se ses IH]; intros Hses st.
  - exists 0, st. split; [done|]. split; [|done].
    by intros se Hin%elem_of_nil.
  - destruct (Hses se) as [ddis Hse]; [apply list_elem_of_here|].
    destruct (enough_candidates se ddis Hse) as (C & Hdist & Hcand & Hlen).
    destruct (create_negative_instances_total rnd (np_draws st) drug_idx_list
                ddis C drugs_nodup rnd_fair Hdist Hcand Hlen)
      as (fuel1 & neg & t' & Hcall & Hinv & Hsize).
    set (shuffled_pos := random_shuffle rnd_py (py_draws st) ddis).
    set (shuffled_neg := random_shuffle rnd_py shuffled_pos.2 (elements neg)).
    set (st1 := {| pos_datasets := od_set (pos_datasets st) se shuffled_pos.1;
                   neg_datasets := od_set (neg_datasets st) se shuffled_neg.1;
                   np_draws := t';
                   py_draws := shuffled_neg.2 |}).
    destruct (IH (λ s Hs, Hses s (list_elem_of_further _ _ _ Hs)) st1)
      as (fuel2 & st' & Hrun & Hok & Hsame).
    exists (fuel1 `max` fuel2), st'. split; [|split].
    + cbn [prepare_loop]. rewrite Hse.
      rewrite (create_negative_instances_fuel_mono fuel1 (fuel1 `max` fuel2)
                 _ _ _ _ _ _ ltac:(lia) Hcall).
      by apply (prepare_loop_fuel_mono fuel2); [lia|].
    + intros s Hs. destruct (decide (s ∈ ses)) as [Hin|Hnin];
        [by apply Hok|].
      apply elem_of_cons in Hs as [->|Hs]; [|done].
      destruct (Hsame se Hnin) as [Hp Hn]. intros ddis' Hddis'.
      rewrite Hse in Hddis'. injection Hddis' as <-.
      exists shuffled_pos.1, shuffled_neg.1.
      rewrite Hp, Hn. subst st1. cbn [pos_datasets neg_datasets].
      rewrite !od_lookup_set, !decide_True by done.
      split; [done|]. split; [apply random_shuffle_perm|].
      split; [done|]. split.
      * subst shuffled_neg. rewrite random_shuffle_perm.
        change (length (elements neg)) with (size neg). done.
      * intros d1 d2 Hin. subst shuffled_neg.
        rewrite random_shuffle_perm in Hin. apply elem_of_elements in Hin.
        destruct (Hinv _ Hin) as (Hne & _ & _ & Hp1 & Hp2 & _).
        rewrite !elem_of_list_to_set in Hp1, Hp2. done.
    + intros s [Hne Hnin]%not_elem_of_cons.
      destruct (Hsame s Hnin) as [-> ->]. subst st1.
      cbn [pos_datasets neg_datasets].
      by rewrite !od_lookup_set, !decide_False by done.
Qed.

(** With a fair random source and enough candidates for every side effect,
    [prepare_dataset] returns, and for every side effect the positive list
    is a reordering of its pairs and the negative list has as many pairs,
    each joining two different drugs and none positive in either
    orientation. *)
Lemma prepare_loop_all_side_effects (t u : nat) :
  ∃ fuel st',
    prepare_loop fuel rnd rnd_py drug_idx_list se_dps_dict
      (od_keys se_dps_dict)
      {| pos_datasets := []; neg_datasets := [];
         np_draws := t; py_draws := u |} = Some (Return st') ∧
    ∀ se, side_effect_ok se_dps_dict st' se.
Proof.
  destruct (prepare_loop_spec (od_keys se_dps_dict)) with
    (st := {| pos_datasets := []; neg_datasets := [];
              np_draws := t; py_draws := u |})
    as (fuel & st' & Hrun & Hok & _).
  { intros se Hin. destruct (od_lookup se_dps_dict se) eqn:Hl; [done|].
    by apply od_lookup_None in Hl. }
  exists fuel, st'. split; [done|]. intros se.
  destruct (decide (se ∈ od_keys se_dps_dict)) as [Hin|Hnin]; [by apply Hok|].
  intros ddis Hl. apply od_lookup_None in Hnin. congruence.
Qed.
End prepare_dataset_facts.

Section prepare_dataset_claims.
Import Sampler SamplerSpec.

(** [prepare_dataset] on the dict of drugs: the statement of
    [prepare_loop_all_side_effects] for the call that the script makes. *)
Lemma prepare_dataset_all_side_effects {G} (rnd : nat → nat * nat)
    (rnd_py : nat → nat) (t u : nat) (se_dps_dict : list (string * list ddp))
    (drug_structure_dict : list (string * G)) :
  NoDup (od_keys drug_structure_dict) →
  fair (od_keys drug_structure_dict) rnd →
  (∀ se ddis, od_lookup se_dps_dict se = Some ddis →
     ∃ C, distinct_unordered C ∧
          Forall (candidate (od_keys drug_structure_dict)
                    (list_to_set ddis)) C ∧
          length ddis ≤ length C) →
  ∃ fuel st',
    prepare_dataset fuel rnd rnd_py t u se_dps_dict drug_structure_dict
      = Some (Return st') ∧
    ∀ se, side_effect_ok se_dps_dict st' se.
Proof.
  intros Hnd Hfair Hcand. unfold prepare_dataset.
  by apply prepare_loop_all_side_effects.
Qed.
End prepare_dataset_claims.

(** ** Side-effect extractor: the grouping loop *)

Section extractor_facts.
Import Extractor ExtractorSpec.
Implicit Types (side_effects : odict string (list ddp)) (row : list string).

Lemma read_rows_header h rows side_effects :
  read_rows 0 (h :: rows) side_effects = read_rows 1 rows side_effects.
Proof. cbn [read_rows]. unfold read_row. by rewrite decide_False by lia. Qed.

Lemma read_row_valid side_effects i did1 did2 sid rest :
  0 < i → did1 ≠ did2 →
  read_row side_effects i (did1 :: did2 :: sid :: rest)
    = Return (add_pair side_effects sid (did1, did2)).
Proof.
  intros Hi Hne. unfold read_row, add_pair.
  rewrite decide_True by done. rewrite bool_decide_eq_true_2 by done.
  cbn [py_assert mbind result_bind].
  destruct (od_lookup side_effects sid) as [ddis|] eqn:Hl.
  - rewrite decide_False by done. by rewrite Hl.
  - rewrite decide_True by done. rewrite od_lookup_set.
    rewrite decide_True by done. by rewrite od_set_set.
Qed.

Lemma read_row_self_pair side_effects i row :
  0 < i → self_pair_row row →
  read_row side_effects i row = Raise AssertionError.
Proof.
  intros Hi (did & sid & rest & ->). unfold read_row.
  rewrite decide_True by done.
  by rewrite bool_decide_eq_false_2 by (intros Hne; by apply Hne).
Qed.

Lemma read_row_short side_effects i row :
  0 < i → ¬ well_formed_row row →
  read_row side_effects i row = Raise ValueError.
Proof.
  intros Hi Hshort. unfold read_row. rewrite decide_True by done.
  destruct row as [|? [|? [|? ?]]]; try done.
  exfalso. apply Hshort. unfold well_formed_row. simpl. lia.
Qed.

Lemma row_cases row :
  valid_row row ∨ self_pair_row row ∨ ¬ well_formed_row row.
Proof.
  destruct row as [|did1 [|did2 [|sid rest]]];
    try (right; right; unfold well_formed_row; simpl; lia).
  destruct (decide (did1 = did2)) as [->|Hne].
  - right; left. by exists did2, sid, rest.
  - left. by exists did1, did2, sid, rest.
Qed.

Lemma od_lookup_add_pair side_effects sid p s :
  od_lookup (add_pair side_effects sid p) s =
    if decide (s = sid)
    then Some (default [] (od_lookup side_effects sid) ++ [p])
    else od_lookup side_effects s.
Proof. unfold add_pair. apply od_lookup_set. Qed.

(** After the loop every side effect holds its old pairs followed by the
    pairs of the rows read, in file order. *)
Lemma read_rows_lookup rows :
  ∀ i side_effects side_effects',
    0 < i →
    read_rows i rows side_effects = Return side_effects' →
    ∀ s, od_lookup side_effects' s =
           extend (od_lookup side_effects s) (omap (row_pair s) rows).
Proof.
  induction rows as [|row rows IH]; intros i se se' Hi Hrun s;
    cbn [read_rows] in Hrun.
  - by injection Hrun as <-.
  - destruct (row_cases row)
      as [(did1 & did2 & sid & rest & -> & Hne) | [Hself | Hshort]].
    + rewrite read_row_valid in Hrun by done.
      rewrite (IH (S i) _ _ ltac:(lia) Hrun s), od_lookup_add_pair.
      cbn [omap list_omap row_pair].
      destruct (decide (s = sid)) as [->|Hs].
      * rewrite decide_True by done.
        destruct (omap (row_pair sid) rows) as [|q l];
          cbn [extend default from_option]; unfold id.
        -- done.
        -- by rewrite <- app_assoc.
      * by rewrite decide_False by done.
    + by rewrite read_row_self_pair in Hrun.
    + by rewrite read_row_short in Hrun.
Qed.

Lemma read_rows_keys_NoDup rows :
  ∀ i side_effects side_effects',
    read_rows i rows side_effects = Return side_effects' →
    NoDup (od_keys side_effects) → NoDup (od_keys side_effects').
Proof.
  induction rows as [|row rows IH]; intros i se se' Hrun Hnd;
    cbn [read_rows] in Hrun.
  - by injection Hrun as <-.
  - destruct (decide (0 < i)) as [Hi|Hi].
    + destruct (row_cases row)
        as [(did1 & did2 & sid & rest & -> & Hne) | [Hself | Hshort]].
      * rewrite read_row_valid in Hrun by done.
        eapply IH; [done|]. by apply od_keys_set_NoDup.
      * by rewrite read_row_self_pair in Hrun.
      * by rewrite read_row_short in Hrun.
    + unfold read_row in Hrun. rewrite decide_False in Hrun by done.
      by eapply IH.
Qed.

Lemma read_rows_pairs_distinct rows :
  ∀ i side_effects side_effects',
    read_rows i rows side_effects = Return side_effects' →
    pairs_distinct side_effects → pairs_distinct side_effects'.
Proof.
  induction rows as [|row rows IH]; intros i se se' Hrun Hd;
    cbn [read_rows] in Hrun.
  - by injection Hrun as <-.
  - destruct (decide (0 < i)) as [Hi|Hi].
    + destruct (row_cases row)
        as [(did1 & did2 & sid & rest & -> & Hne) | [Hself | Hshort]].
      * rewrite read_row_valid in Hrun by done.
        eapply IH; [done|]. unfold pairs_distinct, add_pair.
        apply (od_set_Forall (Forall (λ p : ddp, p.1 ≠ p.2))); [done|].
        apply Forall_app. split; [|by apply Forall_singleton].
        destruct (od_lookup se sid) as [ddis|] eqn:Hl; [|done].
        apply od_lookup_elem in Hl. unfold pairs_distinct in Hd.
        rewrite Forall_forall in Hd. apply (Hd _ Hl).
      * by rewrite read_row_self_pair in Hrun.
      * by rewrite read_row_short in Hrun.
    + unfold read_row in Hrun. rewrite decide_False in Hrun by done.
      by eapply IH.
Qed.

Lemma read_rows_total rows :
  ∀ i side_effects,
    0 < i → Forall valid_row rows →
    is_Return (read_rows i rows side_effects).
Proof.
  induction rows as [|row rows IH]; intros i se Hi Hv; cbn [read_rows].
  - done.
  - apply Forall_cons in Hv as [(did1 & did2 & sid & rest & -> & Hne) Hv].
    rewrite read_row_valid by done. apply IH; [lia|done].
Qed.

End extractor_facts.

(** ** Side-effect extractor: filtering *)

Section extractor_filter.
Import Extractor ExtractorSpec.

Lemma insert_by_len_perm {V} (x : string * list V) l :
  insert_by_len x l ≡ₚ x :: l.
Proof.
  induction l as [|y l IH]; cbn [insert_by_len]; [done|].
  case_decide; [|done]. rewrite IH. apply Permutation_swap.
Qed.

Lemma sorted_by_len_desc_perm {V} (items : list (string * list V)) :
  sorted_by_len_desc items ≡ₚ items.
Proof.
  unfold sorted_by_len_desc. induction items as [|x items IH]; [done|].
  cbn [foldr]. by rewrite insert_by_len_perm, IH.
Qed.

(** The grouping of the whole file: the header is skipped. *)
Lemma read_rows_file rows side_effects :
  read_rows 0 rows [] = Return side_effects →
  (∀ s, od_lookup side_effects s = extend None (pairs_of s rows)) ∧
  NoDup (od_keys side_effects) ∧ pairs_distinct side_effects.
Proof.
  intros Hrun. split; [|split].
  - intros s. destruct rows as [|h rows].
    + by injection Hrun as <-.
    + rewrite read_rows_header in Hrun.
      apply (read_rows_lookup rows 1 [] side_effects ltac:(lia) Hrun s).
  - eapply read_rows_keys_NoDup; [done|]. apply NoDup_nil_2.
  - eapply read_rows_pairs_distinct; [done|]. apply Forall_nil_2.
Qed.

(** What [read_ddi_instances] returns is cut out of the grouping by the
    threshold test, and is all of it without [use_small_dataset]. *)
Lemma read_ddi_instances_inv rows threshold use_small_dataset
    side_effects idx :
  read_ddi_instances rows threshold use_small_dataset
    = Return (side_effects, idx) →
  ∃ grouped,
    read_rows 0 rows [] = Return grouped ∧
    (∀ kv, kv ∈ side_effects →
       kv ∈ filter (λ kv, threshold ≤ length kv.2) grouped) ∧
    (use_small_dataset = false →
       side_effects = filter (λ kv, threshold ≤ length kv.2) grouped).
Proof.
  unfold read_ddi_instances.
  destruct (read_rows 0 rows []) as [grouped|e]; [|done].
  cbn [mbind result_bind]. intros [= <- _]. exists grouped.
  split; [done|]. destruct use_small_dataset.
  - split; [|done]. intros kv Hkv.
    apply (subseteq_take 20) in Hkv.
    by rewrite sorted_by_len_desc_perm in Hkv.
  - done.
Qed.

Lemma extend_None_Some l ddis :
  extend None l = Some ddis → ddis = l.
Proof. destruct l; [done|]. by intros [= <-]. Qed.
End extractor_filter.

(** ** Side-effect extractor: the claims *)

Section extractor_claims.
Import Extractor ExtractorSpec.

(** C4 (amended): every side effect that [read_ddi_instances] returns has
    its full list of pairs, of length at least the threshold; without
    [use_small_dataset] a side effect of the file is returned exactly when
    it has at least [threshold] pairs; the function returns when every data
    row is accepted. *)
Theorem threshold_filter (rows : list (list string)) (threshold : nat) :
  retained_iff_threshold rows threshold false ∧
  (∀ use_small_dataset side_effects idx,
     read_ddi_instances rows threshold use_small_dataset
       = Return (side_effects, idx) →
     ∀ sid ddis, od_lookup side_effects sid = Some ddis →
       ddis = pairs_of sid rows ∧ threshold ≤ length ddis) ∧
  (∀ use_small_dataset,
     Forall valid_row (drop 1 rows) →
     is_Return (read_ddi_instances rows threshold use_small_dataset)).
Proof.
  assert (∀ use_small_dataset side_effects idx,
     read_ddi_instances rows threshold use_small_dataset
       = Return (side_effects, idx) →
     ∀ sid ddis, od_lookup side_effects sid = Some ddis →
       ddis = pairs_of sid rows ∧ threshold ≤ length ddis) as Honly.
  { intros small se idx
      (grouped & Hrun & Hsub & _)%read_ddi_instances_inv sid ddis Hl.
    apply read_rows_file in Hrun as (Hlook & Hnd & _).
    apply od_lookup_elem, Hsub, list_elem_of_filter in Hl as [Hth Hin].
    split; [|done]. apply od_elem_lookup in Hin; [|done].
    rewrite Hlook in Hin. by apply extend_None_Some in Hin. }
  split; [|split; [done|]].
  - intros se idx Hret sid Hsid. split.
    + intros [ddis Hl]. by destruct (Honly _ _ _ Hret _ _ Hl) as [<- ?].
    + intros Hth.
      apply read_ddi_instances_inv in Hret as (grouped & Hrun & _ & ->);
        [|done].
      apply read_rows_file in Hrun as (Hlook & Hnd & _).
      rewrite od_lookup_filter, Hlook by done.
      destruct (pairs_of sid rows) as [|q l] eqn:Hp; [done|].
      cbn [extend default from_option]. by rewrite decide_True.
  - intros small Hvalid. unfold read_ddi_instances.
    assert (is_Return (read_rows 0 rows [])) as Hret.
    { destruct rows as [|h rows]; [done|]. rewrite read_rows_header.
      apply read_rows_total; [lia|done]. }
    by destruct (read_rows 0 rows []).
Qed.


(** C7: every drug pair the program holds joins two different drugs: the
    positive pairs that the reading loop has stored when it ends, those of
    every side effect returned by [read_ddi_instances], and the negative
    pairs returned by [create_negative_instances]. *)
Theorem pairs_join_distinct_drugs :
  (∀ (rows : list (list string)) grouped (sid : string) (ddis : list ddp)
     (did1 did2 : drug),
     read_rows 0 rows [] = Return grouped →
     (sid, ddis) ∈ grouped → (did1, did2) ∈ ddis → did1 ≠ did2) ∧
  (∀ (rows : list (list string)) (threshold : nat)
     (use_small_dataset : bool) side_effects idx (sid : string)
     (ddis : list ddp) (did1 did2 : drug),
     read_ddi_instances rows threshold use_small_dataset
       = Return (side_effects, idx) →
     (sid, ddis) ∈ side_effects → (did1, did2) ∈ ddis → did1 ≠ did2) ∧
  (∀ (fuel : nat) (rnd : nat → nat * nat) (t : nat)
     (drug_idx_list : list drug) (positive_set : gset ddp) size_arg
     (l : list ddp) (t' : nat) (drug1 drug2 : drug),
     Sampler.create_negative_instances fuel rnd t drug_idx_list
       positive_set size_arg = Some (Return (l, t')) →
     (drug1, drug2) ∈ l → drug1 ≠ drug2).
Proof.
  assert (∀ (rows : list (list string)) grouped (sid : string)
            (ddis : list ddp) (did1 did2 : drug),
     read_rows 0 rows [] = Return grouped →
     (sid, ddis) ∈ grouped → (did1, did2) ∈ ddis → did1 ≠ did2) as Hloop.
  { intros rows grouped sid ddis did1 did2 Hrun Hin Hp.
    apply read_rows_file in Hrun as (_ & _ & Hd).
    unfold pairs_distinct in Hd. rewrite Forall_forall in Hd.
    specialize (Hd _ Hin). cbn [snd] in Hd. rewrite Forall_forall in Hd.
    apply (Hd _ Hp). }
  split; [exact Hloop|]. split.
  - intros rows threshold small se idx sid ddis did1 did2
      (grouped & Hrun & Hsub & _)%read_ddi_instances_inv Hin Hp.
    apply Hsub, list_elem_of_filter in Hin as [_ Hin].
    by apply (Hloop rows grouped sid ddis).
  - intros fuel rnd t drugs pos size_arg l t' drug1 drug2
      (neg & -> & Hinv & _)%create_negative_instances_sound Hin.
    apply elem_of_elements in Hin.
    by destruct (Hinv _ Hin) as (Hne & _).
Qed.
End extractor_claims.

Section extractor_witnesses.
Import Extractor ExtractorSpec Examples.

Lemma pairs_500 : length (pairs_of "C0001" rows_500_100) = 500.
Proof. vm_compute; reflexivity. Qed.

Lemma pairs_100 : length (pairs_of "C0002" rows_500_100) = 100.
Proof. vm_compute; reflexivity. Qed.

Lemma rows_500_100_valid : Forall valid_row (drop 1 rows_500_100).
Proof.
  unfold rows_500_100. cbn [drop]. apply Forall_app.
  split; apply Forall_replicate.
  - by exists "CID1", "CID2", "C0001", [].
  - by exists "CID1", "CID3", "C0002", [].
Qed.

(** C4 on the example of the specification: with threshold 498 the side
    effect with 500 data rows is retained and the one with 100 data rows is
    dropped. *)
Lemma threshold_filter_witness :
  match read_ddi_instances rows_500_100 default_threshold false with
  | Return (side_effects, _) =>
    length <$> od_lookup side_effects "C0001" = Some 500 ∧
    od_lookup side_effects "C0002" = None
  | Raise _ => False
  end.
Proof.
  unfold default_threshold.
  destruct (threshold_filter rows_500_100 498) as (Hiff & Honly & Htot).
  specialize (Htot false rows_500_100_valid). specialize (Honly false).
  pose proof pairs_500 as H1. pose proof pairs_100 as H2.
  destruct (read_ddi_instances rows_500_100 498 false)
    as [[side_effects idx]|e] eqn:Hrun; [|exact Htot].
  split.
  - destruct (Hiff side_effects idx Hrun "C0001") as [_ Hret].
    { intros Hnil. rewrite Hnil in H1. discriminate H1. }
    destruct Hret as [ddis Hl]; [rewrite H1; lia|].
    destruct (Honly _ _ eq_refl _ _ Hl) as [-> _].
    rewrite Hl. cbn [fmap option_fmap option_map]. exact (f_equal Some H1).
  - destruct (od_lookup side_effects "C0002") as [ddis|] eqn:Hl;
      [|reflexivity].
    destruct (Honly _ _ eq_refl _ _ Hl) as [-> Hth].
    rewrite H2 in Hth. lia.
Defined.

(** C4, as stated, fails with [use_small_dataset]: a side effect with 498
    pairs can be dropped, since of 21 such side effects only the first 20
    are kept. *)
Lemma threshold_iff_fails_small_dataset :
  ¬ retained_iff_threshold rows21 default_threshold true.
Proof.
  intros Hiff. unfold retained_iff_threshold, default_threshold in Hiff.
  assert (match read_ddi_instances rows21 498 true with
          | Return (side_effects, _) => od_lookup side_effects "C0021" = None
          | Raise _ => False
          end) as Hrun by (vm_compute; reflexivity).
  assert (length (pairs_of "C0021" rows21) = 498) as Hlen
    by (vm_compute; reflexivity).
  destruct (read_ddi_instances rows21 498 true)
    as [[side_effects idx]|e]; [|done].
  destruct (Hiff side_effects idx eq_refl "C0021") as [_ Hret].
  { intros Hnil. rewrite Hnil in Hlen. discriminate Hlen. }
  destruct Hret as [ddis Hl]; [rewrite Hlen; lia|].
  rewrite Hrun in Hl. discriminate Hl.
Qed.



Lemma pairs_join_distinct_drugs_witness :
  "CID1" ≠ "CID2" ∧ "CID3" ≠ "CID4" ∧ "CID4" ≠ "CID1".
Proof.
  destruct pairs_join_distinct_drugs as (Hloop & Hpos & Hneg).
  split; [|split].
  - apply (Hloop rows_small
             [("C0001", [("CID1", "CID2"); ("CID3", "CID4")])]
             "C0001" [("CID1", "CID2"); ("CID3", "CID4")]).
    + vm_compute; reflexivity.
    + apply list_elem_of_here.
    + apply list_elem_of_here.
  - apply (Hpos rows_small 1 false
             [("C0001", [("CID1", "CID2"); ("CID3", "CID4")])]
             [("C0001", 0)] "C0001" [("CID1", "CID2"); ("CID3", "CID4")]).
    + vm_compute; reflexivity.
    + apply list_elem_of_here.
    + apply list_elem_of_further, list_elem_of_here.
  - apply (Hneg 10 (SamplerSpec.round_robin 4) 0 drugs4 pos_set (Some 2)
             [("CID3", "CID1"); ("CID4", "CID1")] 4).
    + vm_compute; reflexivity.
    + apply list_elem_of_further, list_elem_of_here.
Defined.
End extractor_witnesses.

(** ** Fold splitter: slices and loops *)

Section splitter_facts.
Import Splitter.
Context {A : Type}.
Implicit Types (l ddis : list A) (cv : odict Z (odict string (list A))).

Lemma elem_of_py_range lo hi i :
  i ∈ py_range lo hi ↔ (lo ≤ i < hi)%Z.
Proof.
  unfold py_range. rewrite list_elem_of_fmap. split.
  - intros (k & -> & Hk%elem_of_seq). lia.
  - intros Hi. exists (Z.to_nat (i - lo)). split; [lia|].
    apply elem_of_seq. lia.
Qed.

Lemma py_range_from_1 (n : nat) :
  py_range 1 (Z.of_nat n + 1) = (λ k : nat, Z.of_nat (S k)) <$> seq 0 n.
Proof.
  unfold py_range. replace (Z.to_nat (Z.of_nat n + 1 - 1)) with n by lia.
  apply list_fmap_ext. intros _ k _. lia.
Qed.

Lemma py_range_cons lo hi :
  (lo < hi)%Z → py_range lo hi = lo :: py_range (lo + 1) hi.
Proof.
  intros Hlt. unfold py_range.
  replace (Z.to_nat (hi - lo)) with (S (Z.to_nat (hi - (lo + 1)))) by lia.
  cbn [seq fmap list_fmap]. f_equal; [lia|].
  rewrite <- fmap_S_seq, <- list_fmap_compose.
  apply list_fmap_ext. intros _ k _. cbn [compose]. lia.
Qed.

(** A slice with bounds inside the list is [take] after [drop]. *)
Lemma py_slice_nat l (a b : nat) :
  a ≤ b → b ≤ length l →
  py_slice l (Z.of_nat a) (Z.of_nat b) = take (b - a) (drop a l).
Proof.
  intros Hab Hb. unfold py_slice, slice_bound.
  rewrite !decide_False by lia.
  rewrite !Z.min_l by lia. f_equal; [lia|]. f_equal. lia.
Qed.

(** The slice of fold [S k] out of [n] for a list cut in pieces of
    [q = length l / n]. *)
Lemma fold_slice_nat l (n k : nat) :
  S k ≤ n →
  let q := length l / n in
  fold_slice l (Z.of_nat n) (Z.of_nat (length l) / Z.of_nat n)
    (Z.of_nat (S k)) =
    if decide (S k < n) then take q (drop (k * q) l) else drop (k * q) l.
Proof.
  intros Hk q. unfold fold_slice.
  rewrite <- Nat2Z.inj_div. fold q.
  assert (n * q ≤ length l) as Hnq by (apply Nat.Div0.mul_div_le).
  assert (S k * q ≤ n * q) as Hkq by (apply Nat.mul_le_mono_r; lia).
  replace ((Z.of_nat (S k) - 1) * Z.of_nat q)%Z with (Z.of_nat (k * q))
    by lia.
  destruct (decide (S k < n)) as [Hlt|Hge].
  - rewrite decide_True by lia.
    replace (Z.of_nat (S k) * Z.of_nat q)%Z with (Z.of_nat (S k * q))
      by lia.
    rewrite py_slice_nat by lia. f_equal. lia.
  - rewrite decide_False by lia.
    rewrite py_slice_nat by lia. apply take_ge. rewrite length_drop. lia.
Qed.

(** Pieces put back in order give the list again. *)
Lemma concat_chunks l q m : concat (chunks l q m) = l.
Proof.
  unfold chunks. induction m as [|m IH].
  - simpl. by rewrite app_nil_r.
  - rewrite seq_S, fmap_app, <- app_assoc. cbn [fmap list_fmap app].
    rewrite concat_app in *. cbn [concat] in *. rewrite app_nil_r in *.
    rewrite Nat.add_0_l.
    replace (S m * q) with (m * q + q) by lia.
    by rewrite <- drop_drop, take_drop.
Qed.
End splitter_facts.
(** ** Fold splitter: the loops *)

Section splitter_loops.
Import Splitter.
Context {A : Type}.
Implicit Types (l ddis : list A) (cv : odict Z (odict string (list A))).

Lemma cv_lookup_assign cv fold_i se v inner j s :
  od_lookup cv fold_i = Some inner →
  cv_lookup (od_set cv fold_i (od_set inner se v)) j s =
    if decide (j = fold_i ∧ s = se) then Some v else cv_lookup cv j s.
Proof.
  intros Hin. unfold cv_lookup. rewrite od_lookup_set.
  destruct (decide (j = fold_i)) as [->|Hj].
  - rewrite Hin. cbn [mbind option_bind]. rewrite od_lookup_set.
    destruct (decide (s = se)) as [->|Hs].
    + by rewrite decide_True.
    + rewrite decide_False; [done|tauto].
  - rewrite decide_False; [done|tauto].
Qed.

(** The inner loop over the folds [fs] of one side effect. *)
Lemma split_fold_run ddis n_fold fold_len se (fs : list Z) :
  ∀ cv,
    (∀ i, i ∈ fs → is_Some (od_lookup cv i)) →
    ∃ cv',
      for_each fs (split_fold ddis n_fold fold_len se) cv = Return cv' ∧
      (∀ i, is_Some (od_lookup cv' i) ↔ is_Some (od_lookup cv i)) ∧
      ∀ i s, cv_lookup cv' i s =
        if decide (i ∈ fs ∧ s = se)
        then Some (fold_slice ddis n_fold fold_len i)
        else cv_lookup cv i s.
Proof.
  induction fs as [|f fs IH]; intros cv Hcv.
  - exists cv. split; [done|]. split; [done|]. intros i s.
    rewrite decide_False; [done|]. intros [[]%elem_of_nil _].
  - destruct (Hcv f) as [inner Hinner]; [apply list_elem_of_here|].
    cbn [for_each]. unfold split_fold at 1, cv_assign. rewrite Hinner.
    set (v := py_slice _ _ _).
    destruct (IH (od_set cv f (od_set inner se v))) as (cv' & Hrun & Hdom & Hget).
    { intros i Hi. rewrite od_lookup_set. case_decide; [done|].
      apply Hcv. by apply list_elem_of_further. }
    exists cv'. split; [done|]. split.
    + intros i. etrans; [apply Hdom|]. rewrite od_lookup_set.
      case_decide; [|done]. subst. rewrite Hinner. split; eauto.
    + intros i s. rewrite Hget, (cv_lookup_assign _ _ _ _ inner) by done.
      destruct (decide (i ∈ fs ∧ s = se)) as [[Hi ->]|Hn].
      * rewrite decide_True; [done|]. by split; [apply list_elem_of_further|].
      * destruct (decide (i = f ∧ s = se)) as [[-> ->]|Hn'].
        -- rewrite decide_True; [done|]. by split; [apply list_elem_of_here|].
        -- rewrite decide_False; [done|].
           intros [[->|Hi]%elem_of_cons ->]; tauto.
Qed.

(** The outer loop over the side effects [ks]. *)
Lemma split_side_effect_run (datasets : odict string (list A)) n_fold
    (ks : list string) :
  n_fold ≠ 0%Z →
  ∀ cv,
    (∀ k, k ∈ ks → is_Some (od_lookup datasets k)) →
    (∀ i, i ∈ py_range 1 (n_fold + 1) → is_Some (od_lookup cv i)) →
    ∃ cv',
      for_each ks (split_side_effect datasets n_fold) cv = Return cv' ∧
      ∀ i s, cv_lookup cv' i s =
        if decide (i ∈ py_range 1 (n_fold + 1) ∧ s ∈ ks)
        then ddis ← od_lookup datasets s;
             Some (fold_slice ddis n_fold
                     (Z.of_nat (length ddis) / n_fold) i)
        else cv_lookup cv i s.
Proof.
  intros Hn. induction ks as [|k ks IH]; intros cv Hks Hcv.
  - exists cv. split; [done|]. intros i s.
    rewrite decide_False; [done|]. intros [_ []%elem_of_nil].
  - destruct (Hks k) as [ddis Hk]; [apply list_elem_of_here|].
    cbn [for_each]. unfold split_side_effect at 1. rewrite Hk.
    unfold py_floordiv. rewrite decide_False by done.
    cbn [mbind result_bind].
    destruct (split_fold_run ddis n_fold (Z.of_nat (length ddis) / n_fold)
                k (py_range 1 (n_fold + 1)) cv Hcv)
      as (cv1 & -> & Hdom & Hget).
    destruct (IH cv1) as (cv' & Hrun & Hget').
    { intros k' Hk'. apply Hks. by apply list_elem_of_further. }
    { intros i Hi. apply Hdom. by apply Hcv. }
    exists cv'. split; [done|]. intros i s.
    rewrite Hget', Hget.
    destruct (decide (i ∈ py_range 1 (n_fold + 1) ∧ s ∈ ks)) as [[Hi Hs]|Hn1].
    + rewrite decide_True; [done|]. by split; [|apply list_elem_of_further].
    + destruct (decide (i ∈ py_range 1 (n_fold + 1) ∧ s = k)) as [[Hi ->]|Hn2].
      * rewrite decide_True by (by split; [|apply list_elem_of_here]).
        by rewrite Hk.
      * rewrite decide_False; [done|].
        intros [Hi [->|Hs]%elem_of_cons]; tauto.
Qed.

(** The splitter returns for every [n_fold] but 0, and fold [i] of side
    effect [s] is the slice the loop body computes. *)
Lemma split_all_lookup (datasets : odict string (list A)) n_fold :
  n_fold ≠ 0%Z →
  ∃ cv,
    split_all_cross_validation_datasets datasets n_fold = Return cv ∧
    ∀ i s, cv_lookup cv i s =
      if decide (1 ≤ i ≤ n_fold)%Z
      then ddis ← od_lookup datasets s;
           Some (fold_slice ddis n_fold (Z.of_nat (length ddis) / n_fold) i)
      else None.
Proof.
  intros Hn. unfold split_all_cross_validation_datasets.
  set (cv0 := (λ x : Z, (x, @nil (string * list A))) <$> _).
  assert (∀ i, od_lookup cv0 i =
            if decide (i ∈ py_range 1 (n_fold + 1)) then Some [] else None)
    as Hcv0.
  { intros i. subst cv0. induction (py_range 1 (n_fold + 1)) as [|x xs IH].
    - rewrite decide_False; [done|apply not_elem_of_nil].
    - rewrite fmap_cons. cbn [od_lookup]. rewrite IH.
      destruct (decide (i = x)) as [->|Hne].
      + rewrite decide_True; [done|apply list_elem_of_here].
      + destruct (decide (i ∈ xs)).
        * rewrite decide_True; [done|by apply list_elem_of_further].
        * rewrite decide_False; [done|]. rewrite not_elem_of_cons. tauto. }
  destruct (split_side_effect_run datasets n_fold (od_keys datasets) Hn cv0)
    as (cv & Hrun & Hget).
  { intros k Hk. destruct (od_lookup datasets k) eqn:Hl; [done|].
    by apply od_lookup_None in Hl. }
  { intros i Hi. rewrite Hcv0. by rewrite decide_True. }
  exists cv. split; [done|]. intros i s. rewrite Hget.
  assert (cv_lookup cv0 i s = None) as Hnone.
  { unfold cv_lookup. rewrite Hcv0. by case_decide. }
  destruct (decide (1 ≤ i ≤ n_fold)%Z) as [Hi|Hi].
  - destruct (od_lookup datasets s) as [ddis|] eqn:Hl.
    + rewrite decide_True; [done|]. split.
      * apply elem_of_py_range. lia.
      * destruct (decide (s ∈ od_keys datasets)) as [|Hs]; [done|].
        apply od_lookup_None in Hs. congruence.
    + cbn [mbind option_bind]. by case_decide.
  - rewrite decide_False; [done|]. rewrite elem_of_py_range. lia.
Qed.
End splitter_loops.

(** ** Fold splitter: the claims *)

Section splitter_claims.
Import Splitter.
Context {A : Type}.
Implicit Types (l : list A) (datasets : odict string (list A)).

(** The folds of a side effect are the pieces of its list, in order. *)
Lemma split_all_folds datasets (n_fold : Z) (se : string) l :
  (1 ≤ n_fold)%Z → od_lookup datasets se = Some l →
  let N := Z.to_nat n_fold in
  let q := length l / N in
  ∃ cv,
    split_all_cross_validation_datasets datasets n_fold = Return cv ∧
    (∀ k, S k ≤ N →
       cv_lookup cv (Z.of_nat (S k)) se =
         Some (if decide (S k < N) then take q (drop (k * q) l)
               else drop (k * q) l)) ∧
    folds_of cv n_fold se = chunks l q (N - 1).
Proof.
  intros Hn Hl N q.
  destruct (split_all_lookup datasets n_fold ltac:(lia)) as (cv & Hrun & Hget).
  exists cv. split; [done|].
  assert (n_fold = Z.of_nat N) as HnN by lia.
  assert (∀ k, S k ≤ N →
       cv_lookup cv (Z.of_nat (S k)) se =
         Some (if decide (S k < N) then take q (drop (k * q) l)
               else drop (k * q) l)) as Hfold.
  { intros k Hk. rewrite Hget, decide_True, Hl by lia.
    cbn [mbind option_bind]. f_equal. rewrite HnN.
    by apply fold_slice_nat. }
  split; [done|].
  unfold folds_of, chunks. rewrite HnN, py_range_from_1.
  replace N with (S (N - 1)) at 1 by lia.
  rewrite seq_S, !fmap_app, Nat.add_0_l. cbn [fmap list_fmap]. f_equal.
  - rewrite <- list_fmap_compose. apply list_fmap_ext.
    intros i k [-> Hi]%lookup_seq. cbn [compose].
    rewrite Hfold by lia. by rewrite decide_True by lia.
  - rewrite Hfold by lia. by rewrite decide_False by lia.
Qed.

(** C3: for [n_fold >= 1] and a list of length [L], fold [i] with
    [1 <= i < n_fold] is the contiguous slice of length [L / n_fold] at
    offset [(i - 1) * (L / n_fold)], the last fold is the remaining suffix
    of length [L / n_fold + L mod n_fold], and the folds in order make up
    the list: no element changes fold. *)
Theorem folds_are_contiguous_slices datasets (n_fold : Z) (se : string) l :
  (1 ≤ n_fold)%Z → od_lookup datasets se = Some l →
  let N := Z.to_nat n_fold in
  let q := length l / N in
  ∃ cv,
    split_all_cross_validation_datasets datasets n_fold = Return cv ∧
    (∀ i : nat, 1 ≤ i < N →
       cv_lookup cv (Z.of_nat i) se = Some (take q (drop ((i - 1) * q) l)) ∧
       length (take q (drop ((i - 1) * q) l)) = q) ∧
    (cv_lookup cv n_fold se = Some (drop ((N - 1) * q) l) ∧
     length (drop ((N - 1) * q) l) = q + length l `mod` N) ∧
    concat (folds_of cv n_fold se) = l.
Proof.
  intros Hn Hl N q.
  destruct (split_all_folds datasets n_fold se l Hn Hl)
    as (cv & Hrun & Hfold & Hall).
  fold N q in Hfold, Hall. exists cv. split; [done|].
  assert (N * q ≤ length l) as Hnq by (apply Nat.Div0.mul_div_le).
  pose proof (Nat.div_mod_eq (length l) N) as Hdiv. fold q in Hdiv.
  split; [|split].
  - intros i Hi. destruct i as [|k]; [lia|].
    rewrite Hfold by lia. rewrite decide_True by lia.
    replace (S k - 1) with k by lia. split; [done|].
    rewrite length_take, length_drop.
    assert (S k * q ≤ N * q) by (apply Nat.mul_le_mono_r; lia). lia.
  - replace n_fold with (Z.of_nat (S (N - 1))) by lia.
    rewrite Hfold by lia. rewrite decide_False by lia.
    split; [done|]. rewrite length_drop.
    replace N with (S (N - 1)) in Hdiv at 1 by lia. lia.
  - rewrite Hall. apply concat_chunks.
Qed.

(** C2: for [n_fold >= 1] the numbers of pairs that the folds
    [1 .. n_fold] hold for a side effect add up to the number of pairs of
    that side effect. *)
Theorem fold_counts_sum_to_total datasets (n_fold : Z) (se : string) l :
  (1 ≤ n_fold)%Z → od_lookup datasets se = Some l →
  ∃ cv,
    split_all_cross_validation_datasets datasets n_fold = Return cv ∧
    sum_list (fold_count cv se <$> py_range 1 (n_fold + 1)) = length l.
Proof.
  intros Hn Hl.
  destruct (split_all_folds datasets n_fold se l Hn Hl)
    as (cv & Hrun & _ & Hall).
  exists cv. split; [done|].
  transitivity (length (concat (folds_of cv n_fold se)));
    [|by rewrite Hall, concat_chunks].
  rewrite length_concat. unfold folds_of.
  rewrite <- list_fmap_compose. f_equal. apply list_fmap_ext.
  intros _ i _. unfold fold_count. cbn [compose].
  by destruct (cv_lookup cv i se).
Qed.
End splitter_claims.

Section splitter_witnesses.
Import Splitter Examples.

Lemma folds_are_contiguous_slices_witness :
  ∃ cv,
    split_all_cross_validation_datasets datasets7 3 = Return cv ∧
    cv_lookup cv 1 "C0001" = Some [("CID1", "CID2"); ("CID1", "CID3")] ∧
    cv_lookup cv 2 "C0001" = Some [("CID1", "CID4"); ("CID2", "CID3")] ∧
    cv_lookup cv 3 "C0001" =
      Some [("CID2", "CID4"); ("CID3", "CID4"); ("CID4", "CID5")] ∧
    concat (folds_of cv 3 "C0001") = pairs7.
Proof.
  destruct (folds_are_contiguous_slices datasets7 3 "C0001" pairs7)
    as (cv & Hrun & Hmid & [Hlast _] & Hcat); [lia|reflexivity|].
  exists cv. split; [exact Hrun|].
  split; [exact (proj1 (Hmid 1 ltac:(simpl; lia)))|].
  split; [exact (proj1 (Hmid 2 ltac:(simpl; lia)))|].
  split; [exact Hlast|exact Hcat].
Defined.

Lemma fold_counts_sum_to_total_witness :
  ∃ cv,
    split_all_cross_validation_datasets datasets7 3 = Return cv ∧
    sum_list (fold_count cv "C0001" <$> py_range 1 (3 + 1)) = 7.
Proof.
  apply (fold_counts_sum_to_total datasets7 3 "C0001" pairs7);
    [lia|reflexivity].
Defined.
End splitter_witnesses.

(** ** Fold writer *)

Section writer_facts.
Import Splitter Writer.
Variable pickle_dumps : fold_dataset → list Byte.byte.

(** The file name cannot be built: [opt.path] is [None] or a list, and
    even a [str] path meets the [int] [opt.n_fold]. *)
Lemma write_fold_raises opt pos_cv_dataset neg_cv_dataset fs fold_i :
  write_fold pickle_dumps opt pos_cv_dataset neg_cv_dataset fs fold_i
    = Raise TypeError.
Proof. unfold write_fold. by destruct (path opt). Qed.

(** For every [n_fold >= 1] the first iteration of the writing loop raises
    [TypeError]: no fold is written. *)
Lemma split_decagon_cv_raises opt fs :
  (1 ≤ n_fold opt)%Z →
  split_decagon_cv pickle_dumps opt fs = Raise TypeError.
Proof.
  intros Hn. unfold split_decagon_cv.
  destruct (split_all_lookup (pos_datasets opt) (n_fold opt) ltac:(lia))
    as (pos_cv & -> & _).
  destruct (split_all_lookup (neg_datasets opt) (n_fold opt) ltac:(lia))
    as (neg_cv & -> & _).
  cbn [mbind result_bind]. rewrite py_range_cons by lia.
  cbn [for_each]. by rewrite write_fold_raises.
Qed.

(** C8 (the code at a default run): [split_decagon_cv] raises [TypeError]
    before it writes any fold file. *)
Theorem split_decagon_cv_default_raises fs :
  split_decagon_cv pickle_dumps Examples.opt_default fs = Raise TypeError.
Proof. apply split_decagon_cv_raises. simpl. lia. Qed.

Lemma split_decagon_cv_path_raises fs :
  split_decagon_cv pickle_dumps Examples.opt_path fs = Raise TypeError.
Proof. apply split_decagon_cv_raises. simpl. lia. Qed.
End writer_facts.

(** ** The qm9 split *)

Section qm9_claims.
Import Splitter Qm9.

(** C10: [split_qm9_cv] never completes normally: the first iteration of
    its loop calls [random.randint] with one argument, which raises
    [TypeError]; so the qm9 branch of [main] never returns either. *)
Theorem split_qm9_cv_raises {G} (graph_dict : odict string G)
    (rnd : nat → nat) :
  split_qm9_cv graph_dict rnd = Raise TypeError ∧
  ∀ prepared : result (odict string G), ¬ is_Return (main_qm9 prepared rnd).
Proof.
  assert (∀ g : odict string G, split_qm9_cv g rnd = Raise TypeError) as H.
  { intros g. unfold split_qm9_cv. rewrite py_range_cons by lia.
    cbn [for_each]. unfold qm9_step at 1. cbn [fst snd].
    rewrite decide_True by apply not_elem_of_nil. done. }
  split; [apply H|].
  intros [g|e]; unfold main_qm9; cbn [mbind result_bind].
  - rewrite H. intros [].
  - intros [].
Qed.
End qm9_claims.
